(** * tmt ReportPortal report plugin: a shallow embedding

    The development embeds [tmt/steps/report/reportportal.py]:

    - the log sanitisation filters ([_filter_log_per_size],
      [_filter_invalid_chars], [_filter_log]);
    - [check_options], [construct_launch_attributes],
      [get_defect_type_locator], [append_description];
    - [execute_rp_import] and [go], as programs of a small state and
      exception monad whose state holds the plugin data ([self.data]),
      the warnings printed and the trace of requests sent to ReportPortal.

    Python [str] values that are log text are lists of Unicode code points
    ([text]); names, identifiers and time stamps are [string]s.  Python
    dictionaries whose iteration order is observable are association lists
    with the insertion order of Python; the [test_uuids] dictionary, which
    is only indexed, is a [gmap]. *)

From Stdlib Require Import ZArith List String Ascii Bool Lia DecimalString.
From stdpp Require Import base gmap strings list.

Open Scope Z_scope.

(** ** Python values *)

(** A Python [str] holding log text: its sequence of code points. *)
Abbreviation text := (list Z).

Definition text_of_string (s : string) : text :=
  List.map (fun a => Z.of_N (N_of_ascii a)) (list_ascii_of_string s).

(** Truth value of an [Optional[str]]: [None] and the empty string are false. *)
Definition truthy (o : option string) : bool :=
  match o with
  | Some s => negb (String.eqb s "")
  | None => false
  end.

(** [a or b] on two optional strings, as a value. *)
Definition py_or (a b : option string) : option string :=
  if truthy a then a else b.

(** [a or d] where [d] is a string. *)
Definition or_str (a : option string) (d : string) : string :=
  match a with
  | Some s => if String.eqb s "" then d else s
  | None => d
  end.

(** [str(x)] and [f"{x}"] for an optional string. *)
Definition py_str (o : option string) : string :=
  match o with
  | Some s => s
  | None => "None"
  end.

(** [data[:n]]: a negative bound counts from the end. *)
Definition py_slice_to {A : Type} (n : Z) (l : list A) : list A :=
  if n <? 0 then firstn (Z.to_nat (Z.of_nat (length l) + n)) l
  else firstn (Z.to_nat n) l.

(** [enumerate(l)]. *)
Fixpoint enumerate_from {A : Type} (i : nat) (l : list A) : list (nat * A) :=
  match l with
  | [] => []
  | x :: r => (i, x) :: enumerate_from (S i) r
  end.

Definition enumerate {A : Type} (l : list A) : list (nat * A) :=
  enumerate_from 0 l.

Definition newline : string := String "010"%char EmptyString.

(** ** Sizes

    A quantity of [tmt.hardware.UNITS]: the two observations the plugin
    makes of it are its magnitude in bytes and its printed form. *)
Record Size : Type := mkSize {
  to_bytes : Z;
  size_str : string
}.

(** [tmt.hardware.UNITS('1 MB')] and [tmt.hardware.UNITS('50 kB')]. *)
Definition DEFAULT_LOG_SIZE_LIMIT : Size :=
  {| to_bytes := 1000000; size_str := "1 MB" |}.
Definition DEFAULT_TRACEBACK_SIZE_LIMIT : Size :=
  {| to_bytes := 50000; size_str := "50 kB" |}.

Record LogFilterSettings : Type := mkLogFilterSettings {
  size : Size;
  is_traceback : bool
}.

(** [LogFilterSettings()]. *)
Definition default_LogFilterSettings : LogFilterSettings :=
  {| size := DEFAULT_LOG_SIZE_LIMIT; is_traceback := false |}.

(** The character class of [_filter_invalid_chars], before its negation:
    U+0020-U+D7FF, tab, LF, CR, U+E000-U+FFFD, U+10000-U+10FFFF. *)
Definition xml_safe (c : Z) : bool :=
  ((0x20 <=? c) && (c <=? 0xD7FF))
  || (c =? 0x9) || (c =? 0xA) || (c =? 0xD)
  || ((0xE000 <=? c) && (c <=? 0xFFFD))
  || ((0x10000 <=? c) && (c <=? 0x10FFFF)).

(** A surrogate code point, U+D800-U+DFFF. *)
Definition is_surrogate (c : Z) : bool := (0xD800 <=? c) && (c <=? 0xDFFF).

(** The number of bytes of a code point in UTF-8, and the byte length of a
    text: the measure the specification speaks of.  The source never
    computes it. *)
Definition utf8_width (c : Z) : Z :=
  if c <? 0x80 then 1 else if c <? 0x800 then 2 else if c <? 0x10000 then 3 else 4.

Definition spec_byte_length (data : text) : Z :=
  fold_right (fun c n => utf8_width c + n) 0 data.

Section Sanitize.

(** The printed form of [tmt.hardware.UNITS(f'{n} bytes')]. *)
Variable bytes_repr : Z -> string.

Definition UNITS_bytes (n : Z) : Size :=
  {| to_bytes := n; size_str := bytes_repr n |}.

(** Lines 60-65.  [re.sub('[^...]+', '', data)]: every maximal run of code
    points outside the class is deleted, so exactly the code points of the
    class are kept, in order. *)
Definition _filter_invalid_chars (data : text) (settings : LogFilterSettings) : text :=
  List.filter xml_safe data.

(** Lines 72-81: the banner. *)
Definition size_header (sz : Size) (settings : LogFilterSettings) : string :=
  let variable :=
    if is_traceback settings
    then "TMT_PLUGIN_REPORT_REPORTPORTAL_TRACEBACK_SIZE_LIMIT"
    else "TMT_PLUGIN_REPORT_REPORTPORTAL_LOG_SIZE_LIMIT" in
  let option :=
    if is_traceback settings then "--traceback-size-limit" else "--log-size-limit" in
  "WARNING: Uploaded log has been truncated because its size " +:+ size_str sz
    +:+ " exceeds tmt reportportal plugin limit of " +:+ size_str (size settings)
    +:+ ". The limit is controlled with " +:+ option +:+ " plugin option or "
    +:+ variable +:+ " environment variable." +:+ newline +:+ newline.

(** Lines 68-83.  [len(data)] is the number of code points of the [str]. *)
Definition _filter_log_per_size (data : text) (settings : LogFilterSettings) : text :=
  let sz := UNITS_bytes (Z.of_nat (length data)) in
  if to_bytes (size settings) <? to_bytes sz
  then (text_of_string (size_header sz settings)
          ++ py_slice_to (to_bytes (size settings)) data)%list
  else data.

(** Lines 86-96. *)
Definition _LOG_FILTERS : list (text -> LogFilterSettings -> text) :=
  [_filter_log_per_size; _filter_invalid_chars].

Definition _filter_log (log : text) (settings : option LogFilterSettings) : text :=
  let settings := match settings with
                  | Some s => s
                  | None => default_LogFilterSettings
                  end in
  fold_left (fun log log_filter => log_filter log settings) _LOG_FILTERS log.

End Sanitize.

(** ** The run as the plugin sees it *)

Inductive ResultOutcome : Type := PASS | FAIL | INFO | WARN | ERROR | SKIP.

(** A ReportPortal attribute, [{'key': k, 'value': v}]. *)
Abbreviation attribute := (string * string)%type.

Record Guest : Type := mkGuest {
  primary_address : option string;
  guest_name : string;
  guest_role : option string
}.

Record Result : Type := mkResult {
  result_serial_number : Z;
  result_name : string;
  result : ResultOutcome;
  start_time : option string;
  end_time : option string;
  log : list string;
  guest : Guest;
  failures : text -> text
}.

Record Test : Type := mkTest {
  test_serial_number : Z;
  declared_name : string;
  contact : list string;
  summary : option string;
  web_link : option string;
  test_id : option string;
  environment : list (string * string)
}.

(** A Python dictionary with its insertion order: keys are unique. *)
Abbreviation dict V := (list (string * V)).

Fixpoint dict_get {V : Type} (d : dict V) (k : string) : option V :=
  match d with
  | [] => None
  | (k', v) :: r => if String.eqb k' k then Some v else dict_get r k
  end.

(** [d[k] = v]: an existing key keeps its position, a new key goes last. *)
Fixpoint dict_set {V : Type} (d : dict V) (k : string) (v : V) : dict V :=
  match d with
  | [] => [(k, v)]
  | (k', v') :: r => if String.eqb k' k then (k', v) :: r else (k', v') :: dict_set r k v
  end.

Record Plan : Type := mkPlan {
  plan_name : string;
  plan_summary : option string;
  _fmf_context : dict (list string)
}.

(** What [self.step.plan] gives access to.  [plan_index] is the position of
    the current plan in [my_run.plans] (plans are compared by identity);
    [first_plan_phases] lists [data.launch_uuid] of the ReportPortal report
    phases of [my_run.plans[0]]. *)
Record Step : Type := mkStep {
  plan : Plan;
  my_run_plans : option (list Plan);
  plan_index : nat;
  first_plan_phases : list (option string);
  execute_results : list Result;
  results_for_tests : list (option Result * option Test);
  execute_read : string -> option text
}.

(** The fields of [ReportReportPortalData] the plugin reads or writes. *)
Record ReportReportPortalData : Type := mkData {
  url : option string;
  token : option string;
  project : option string;
  launch : option string;
  launch_description : option string;
  launch_per_plan : bool;
  suite_per_plan : bool;
  upload_to_launch : option string;
  upload_to_suite : option string;
  launch_rerun : bool;
  defect_type : option string;
  log_size_limit : Size;
  traceback_size_limit : Size;
  exclude_variables : string;
  artifacts_url : option string;
  ssl_verify : bool;
  launch_url : option string;
  launch_uuid : option string;
  suite_uuid : option string;
  test_uuids : gmap Z string
}.

Definition set_url (v : option string) (d : ReportReportPortalData) :=
  mkData v (token d) (project d) (launch d) (launch_description d)
    (launch_per_plan d) (suite_per_plan d) (upload_to_launch d) (upload_to_suite d)
    (launch_rerun d) (defect_type d) (log_size_limit d) (traceback_size_limit d)
    (exclude_variables d) (artifacts_url d) (ssl_verify d) (launch_url d)
    (launch_uuid d) (suite_uuid d) (test_uuids d).

Definition set_suite_per_plan (v : bool) (d : ReportReportPortalData) :=
  mkData (url d) (token d) (project d) (launch d) (launch_description d)
    (launch_per_plan d) v (upload_to_launch d) (upload_to_suite d)
    (launch_rerun d) (defect_type d) (log_size_limit d) (traceback_size_limit d)
    (exclude_variables d) (artifacts_url d) (ssl_verify d) (launch_url d)
    (launch_uuid d) (suite_uuid d) (test_uuids d).

Definition set_defect_type (v : option string) (d : ReportReportPortalData) :=
  mkData (url d) (token d) (project d) (launch d) (launch_description d)
    (launch_per_plan d) (suite_per_plan d) (upload_to_launch d) (upload_to_suite d)
    (launch_rerun d) v (log_size_limit d) (traceback_size_limit d)
    (exclude_variables d) (artifacts_url d) (ssl_verify d) (launch_url d)
    (launch_uuid d) (suite_uuid d) (test_uuids d).

Definition set_launch_url (v : option string) (d : ReportReportPortalData) :=
  mkData (url d) (token d) (project d) (launch d) (launch_description d)
    (launch_per_plan d) (suite_per_plan d) (upload_to_launch d) (upload_to_suite d)
    (launch_rerun d) (defect_type d) (log_size_limit d) (traceback_size_limit d)
    (exclude_variables d) (artifacts_url d) (ssl_verify d) v
    (launch_uuid d) (suite_uuid d) (test_uuids d).

Definition set_launch_uuid (v : option string) (d : ReportReportPortalData) :=
  mkData (url d) (token d) (project d) (launch d) (launch_description d)
    (launch_per_plan d) (suite_per_plan d) (upload_to_launch d) (upload_to_suite d)
    (launch_rerun d) (defect_type d) (log_size_limit d) (traceback_size_limit d)
    (exclude_variables d) (artifacts_url d) (ssl_verify d) (launch_url d)
    v (suite_uuid d) (test_uuids d).

Definition set_suite_uuid (v : option string) (d : ReportReportPortalData) :=
  mkData (url d) (token d) (project d) (launch d) (launch_description d)
    (launch_per_plan d) (suite_per_plan d) (upload_to_launch d) (upload_to_suite d)
    (launch_rerun d) (defect_type d) (log_size_limit d) (traceback_size_limit d)
    (exclude_variables d) (artifacts_url d) (ssl_verify d) (launch_url d)
    (launch_uuid d) v (test_uuids d).

Definition set_test_uuids (v : gmap Z string) (d : ReportReportPortalData) :=
  mkData (url d) (token d) (project d) (launch d) (launch_description d)
    (launch_per_plan d) (suite_per_plan d) (upload_to_launch d) (upload_to_suite d)
    (launch_rerun d) (defect_type d) (log_size_limit d) (traceback_size_limit d)
    (exclude_variables d) (artifacts_url d) (ssl_verify d) (launch_url d)
    (launch_uuid d) (suite_uuid d) v.

(** ** Requests and responses

    One constructor per call site of [rp_api_post], [rp_api_get] and
    [rp_api_put]; the arguments are the variable parts of the path and the
    fields of the JSON body, in the order of the source.

    - [POST_launch]: POST launch
    - [GET_item], [GET_launch], [GET_launch_uuid]: GET item/{id},
      launch/{id}, launch/uuid/{uuid}
    - [POST_suite]: POST item, with type suite
    - [POST_step]: POST item or item/{suite_uuid}, with type step
    - [POST_log_entry]: POST log/entry
    - [PUT_item]: PUT item/{item_uuid}, the finish call of a test item
    - [PUT_suite]: PUT item or item/{suite_uuid}, the finish call of a suite
    - [PUT_launch_finish]: PUT launch/{launch_uuid}/finish
    - [GET_settings]: GET settings *)
Inductive request : Type :=
| POST_launch (name description : string) (attributes : list attribute)
              (startTime : string) (rerun : bool)
| GET_item (suite_id : string)
| GET_launch (launch_id : string)
| GET_launch_uuid (launch_uuid : string)
| POST_suite (name description : string) (attributes : list attribute)
             (startTime launchUuid : string)
| POST_step (suite_uuid : option string) (name : option string) (description : string)
            (attributes : list attribute) (parameters : option (list attribute))
            (codeRef : option string) (launchUuid : string)
            (testCaseId : option string) (startTime : string)
| POST_log_entry (message : text) (itemUuid launchUuid level time : string)
| PUT_item (item_uuid launchUuid endTime status issueType : string)
| PUT_suite (suite_uuid : option string) (launchUuid endTime : string)
| PUT_launch_finish (launch_uuid endTime : string)
| GET_settings.

Record DefectType : Type := mkDefectType {
  locator : string;
  longName : string
}.

(** A response: [response.ok], [response.status_code], and what
    [yaml_to_dict(response.text).get(...)] gives for the keys the plugin
    asks for. *)
Record response : Type := mkResponse {
  ok : bool;
  status_code : Z;
  r_id : option string;
  r_uuid : option string;
  r_name : option string;
  r_launchId : option string;
  r_link : option string;
  r_subTypes : option (dict (list DefectType))
}.

(** ** The monad: plugin state, request trace, exceptions *)

Inductive exception : Type :=
| ReportError_status (code : Z)        (* handle_response *)
| ReportError_defect_type (name : string)
| ReportError_config (missing : string)  (* go *)
| KeyError
| IndexError
| AssertionError
| UnboundLocalError.

Record world : Type := mkWorld {
  trace : list request;
  data : ReportReportPortalData;
  warnings : list string
}.

Inductive res (A : Type) : Type :=
| Val (a : A)
| Exc (e : exception).
Arguments Val {A} a.
Arguments Exc {A} e.

Definition M (A : Type) : Type := world -> res A * world.

Definition ret {A : Type} (a : A) : M A := fun w => (Val a, w).

Definition raise {A : Type} (e : exception) : M A := fun w => (Exc e, w).

Definition bind {A B : Type} (m : M A) (k : A -> M B) : M B :=
  fun w => match m w with
           | (Val a, w') => k a w'
           | (Exc e, w') => (Exc e, w')
           end.

Notation "'let*' x ':=' m 'in' k" := (bind m (fun x => k))
  (at level 10, x pattern, m at level 100, k at level 200).
Notation "m ';;' k" := (bind m (fun _ => k))
  (at level 100, k at level 200, right associativity).

Definition get_data : M ReportReportPortalData := fun w => (Val (data w), w).

Definition modify_data (f : ReportReportPortalData -> ReportReportPortalData) : M unit :=
  fun w => (Val tt, mkWorld (trace w) (f (data w)) (warnings w)).

Definition warn (msg : string) : M unit :=
  fun w => (Val tt, mkWorld (trace w) (data w) (warnings w ++ [msg])).

Definition when (b : bool) (m : M unit) : M unit := if b then m else ret tt.

(** [assert o is not None]. *)
Definition assert_some {A : Type} (o : option A) : M A :=
  match o with
  | Some a => ret a
  | None => raise AssertionError
  end.

(** A [for] loop threading the variables the body assigns. *)
Fixpoint for_each {A S : Type} (body : S -> A -> M S) (l : list A) (s : S) : M S :=
  match l with
  | [] => ret s
  | x :: r => let* s' := body s x in for_each body r s'
  end.

(** Exceptions of pure code. *)
Definition lift {A : Type} (r : res A) : M A := fun w => (r, w).

(** A list comprehension whose element expression can raise. *)
Fixpoint comprehension {A B : Type} (f : A -> res B) (l : list A) : res (list B) :=
  match l with
  | [] => Val []
  | x :: r =>
      match f x with
      | Exc e => Exc e
      | Val y => match comprehension f r with
                 | Exc e => Exc e
                 | Val ys => Val (y :: ys)
                 end
      end
  end.

(** [min(l)] on a non-empty list of strings, whose first element is [x]:
    the first of the least elements. *)
Definition str_min (x : string) (r : list string) : string :=
  fold_left (fun m s => if String.ltb s m then s else m) r x.

(** [s.rstrip("/")]. *)
Fixpoint rstrip_slash (s : string) : string :=
  match s with
  | EmptyString => EmptyString
  | String c r =>
      match rstrip_slash r with
      | EmptyString => if Ascii.eqb c "/" then EmptyString else String c EmptyString
      | r' => String c r'
      end
  end.

(** ** The outcome table (lines 317-323) *)

Definition TMT_TO_RP_RESULT_STATUS (o : ResultOutcome) : string :=
  match o with
  | PASS => "PASSED"
  | FAIL => "FAILED"
  | INFO => "SKIPPED"
  | WARN => "FAILED"
  | ERROR => "FAILED"
  | SKIP => "SKIPPED"
  end.

(** ** Attributes *)

(** [value[0]] for one item of a context. *)
Definition first_value (item : string * list string) : res attribute :=
  match snd item with
  | [] => Exc IndexError
  | v :: _ => Val (fst item, v)
  end.

(** [{key: value[0] for key, value in plan._fmf_context.items()}]. *)
Definition merged_plan (p : Plan) : res (dict string) :=
  match comprehension first_value (_fmf_context p) with
  | Exc e => Exc e
  | Val kvs => Val (fold_left (fun d kv => dict_set d (fst kv) (snd kv)) kvs [])
  end.

(** The body of the loop over [merged_plans[1:]]: the new [result_dict]. *)
Definition common_items (result_dict current_plan : dict string) : dict string :=
  fold_left
    (fun tmp_dict kv =>
       match dict_get result_dict (fst kv) with
       | Some v => if String.eqb v (snd kv) then dict_set tmp_dict (fst kv) (snd kv)
                   else tmp_dict
       | None => tmp_dict
       end)
    current_plan [].

(** Lines 368-383.  [my_run] is [self.step.plan.my_run]. *)
Definition construct_launch_attributes (my_run : option (list Plan))
    (suite_per_plan : bool) (attributes : list attribute) : res (list attribute) :=
  match (if suite_per_plan then my_run else None) with
  | None => Val attributes
  | Some plans =>
      match comprehension merged_plan plans with
      | Exc e => Exc e
      | Val merged_plans =>
          match merged_plans with
          | [] => Exc IndexError
          | first :: rest => Val (fold_left common_items rest first)
          end
      end
  end.

(** ** Options *)

(** Lines 336-351. *)
Definition check_options : M unit :=
  let* d := get_data in
  when (launch_per_plan d && suite_per_plan d)
    (warn "The options '--launch-per-plan' and '--suite-per-plan' are mutually exclusive. Default option '--launch-per-plan' is used." ;;
     modify_data (set_suite_per_plan false)) ;;
  let* d := get_data in
  when (launch_rerun d && (truthy (upload_to_launch d) || truthy (upload_to_suite d)))
    (warn "Unexpected option combination: '--launch-rerun' is ignored when uploading additional tests.") ;;
  let* d := get_data in
  when (negb (suite_per_plan d) && launch_rerun d)
    (warn "Unexpected option combination: '--launch-rerun' may cause an unexpected behaviour with launch-per-plan structure").

(** Lines 430-437. *)
Definition append_description (d : ReportReportPortalData) (curr_description : string) : string :=
  if truthy (launch_description d)
  then if String.eqb curr_description "" then py_str (launch_description d)
       else curr_description +:+ "<br>" +:+ py_str (launch_description d)
  else curr_description.

(** The local variables of [execute_rp_import] computed from [self.data]
    before the session is opened (lines 459-478): [launch_per_plan] with its
    default, [additional_upload], [create_test], [create_suite]. *)
Definition effective_launch_per_plan (d : ReportReportPortalData) : bool :=
  if negb (launch_per_plan d) && negb (suite_per_plan d) then true else launch_per_plan d.

Definition additional_upload (d : ReportReportPortalData) : option string :=
  py_or (upload_to_suite d) (py_or (upload_to_launch d) (launch_uuid d)).

Definition create_test (d : ReportReportPortalData) : bool :=
  bool_decide (test_uuids d = ∅).

Definition create_suite (d : ReportReportPortalData) : bool :=
  suite_per_plan d && negb (truthy (suite_uuid d) || truthy (upload_to_suite d)).

Definition GROUPS_TO_SEARCH : list string :=
  ["TO_INVESTIGATE"; "NO_DEFECT"; "SYSTEM_ISSUE"; "AUTOMATION_BUG"; "PRODUCT_BUG"].

(** ** The plugin *)

Section Plugin.

(** The printed form of [tmt.hardware.UNITS(f'{n} bytes')]. *)
Variable bytes_repr : Z -> string.
(** [str.lower]. *)
Variable lower : string -> string.
(** [re.search(pattern, key)] as a truth value. *)
Variable re_search : string -> string -> bool.
(** [self.datetime]: the time stamp of the clock. *)
Variable datetime : string.
(** The ReportPortal instance behind the session: its response to a
    request, given the requests it has received before. *)
Variable server : list request -> request -> response.
(** [self.step]. *)
Variable step : Step.

(** Lines 325-334 and 410-428: [rp_api_get], [rp_api_post], [rp_api_put]
    with [handle_response].  The request is sent, then a response that is
    not ok raises [ReportError]. *)
Definition rp_api (r : request) : M response :=
  fun w =>
    let resp := server (trace w) r in
    let w' := mkWorld (trace w ++ [r]) (data w) (warnings w) in
    if ok resp then (Val resp, w')
    else (Exc (ReportError_status (status_code resp)), w').

(** The comprehension over one group and [dt_tmp[0] if dt_tmp else None]. *)
Definition group_locator (defect_types_list : list DefectType) (defect_type : string)
    : option string :=
  let dt_tmp :=
    List.map locator
      (List.filter (fun dt => String.eqb (lower (longName dt)) (lower defect_type))
                   defect_types_list) in
  match dt_tmp with
  | l :: _ => Some l
  | [] => None
  end.

(** The loop over [groups_to_search], with its [break]; the result is the
    value of [dt_locator] after the loop. *)
Fixpoint search_groups (defect_types : dict (list DefectType)) (defect_type : string)
    (groups : list string) (dt_locator : option string) : res (option string) :=
  match groups with
  | [] => Val dt_locator
  | group_name :: rest =>
      match dict_get defect_types group_name with
      | None => Exc KeyError
      | Some defect_types_list =>
          let dt_locator := group_locator defect_types_list defect_type in
          if truthy dt_locator then Val dt_locator
          else search_groups defect_types defect_type rest dt_locator
      end
  end.

(** Lines 385-408. *)
Definition get_defect_type_locator (defect_type : option string) : M string :=
  if negb (truthy defect_type) then ret "ti001"
  else
    let* response := rp_api GET_settings in
    match r_subTypes response with
    | None => ret "ti001"
    | Some [] => ret "ti001"
    | Some defect_types =>
        let* dt_locator :=
          lift (search_groups defect_types (py_str defect_type) GROUPS_TO_SEARCH None) in
        if negb (truthy dt_locator)
        then raise (ReportError_defect_type (py_str defect_type))
        else ret (py_str dt_locator)
    end.

(** Lines 667-707: the body of the loop over [enumerate(result.log)].
    The variable threaded through the loop is [status]. *)
Definition upload_log (r : Result) (item_uuid launch_uuid test_time : string)
    (status : string) (il : nat * string) : M string :=
  let '(index, log_path) := il in
  match execute_read step log_path with
  | None => ret status
  | Some log_text =>
      let level :=
        match List.hd_error (log r) with
        | Some first => if String.eqb log_path first then "INFO" else "TRACE"
        | None => "TRACE"
        end in
      let status := TMT_TO_RP_RESULT_STATUS (result r) in
      let* d := get_data in
      let message :=
        _filter_log bytes_repr log_text (Some (mkLogFilterSettings (log_size_limit d) false)) in
      rp_api (POST_log_entry message item_uuid launch_uuid level test_time) ;;
      (if Nat.eqb index 0 && String.eqb status "FAILED"
       then
         let* d := get_data in
         let message :=
           _filter_log bytes_repr (failures r log_text)
             (Some (mkLogFilterSettings (traceback_size_limit d) true)) in
         rp_api (POST_log_entry message item_uuid launch_uuid "ERROR" test_time) ;;
         ret tt
       else ret tt) ;;
      ret status
  end.

Definition upload_logs (r : Result) (item_uuid launch_uuid test_time : string)
    (status : string) : M string :=
  for_each (upload_log r item_uuid launch_uuid test_time) (enumerate (log r)) status.

(** Attributes appended for the guest of a result (lines 602-613). *)
Definition guest_attributes (g : Guest) : list attribute :=
  ((if truthy (primary_address g)
    then [("guest_primary_address", py_str (primary_address g))] else [])
   ++ (if String.eqb (guest_name g) "default-0" then [] else [("guest_name", guest_name g)])
   ++ (if truthy (guest_role g) then [("guest_role", py_str (guest_role g))] else []))%list.

(** The variables the loop over the tests threads from one iteration to
    the next. *)
Record loop_vars : Type := mkLoopVars {
  cur_test_time : string;
  cur_launch_time : string;
  cur_serial_number : option Z
}.

Definition unbound {A : Type} (o : option A) : M A :=
  match o with
  | Some a => ret a
  | None => raise UnboundLocalError
  end.

(** Lines 633-658: create the test item, or reuse the stored one. *)
Definition test_item (create_test launch_per_plan : bool) (suite_uuid : option string)
    (launch_uuid : string) (serial_number : option Z) (test_name : option string)
    (test_description : string) (item_attributes : list attribute)
    (env_vars : option (list attribute)) (test_link test_id : option string)
    (test_time : string) : M string :=
  if create_test then
    let* d := get_data in
    let test_description :=
      if (truthy (upload_to_launch d) && launch_per_plan) || truthy (upload_to_suite d)
      then append_description d test_description
      else test_description in
    let* response :=
      rp_api (POST_step (if truthy suite_uuid then suite_uuid else None)
                test_name test_description item_attributes env_vars test_link
                launch_uuid test_id test_time) in
    let* item_uuid := assert_some (r_id response) in
    let* serial_number := unbound serial_number in
    modify_data (fun d => set_test_uuids (<[serial_number := item_uuid]> (test_uuids d)) d) ;;
    ret item_uuid
  else
    let* serial_number := unbound serial_number in
    let* d := get_data in
    match test_uuids d !! serial_number with
    | Some item_uuid => ret item_uuid
    | None => raise KeyError
    end.

(** Lines 588-721: the body of the loop over [results_for_tests]. *)
Definition process_test (create_test launch_per_plan : bool)
    (attributes : list attribute) (envar_pattern defect_type : string)
    (suite_uuid : option string) (launch_uuid : string)
    (vars : loop_vars) (rt : option Result * option Test) : M loop_vars :=
  let '(result, test) := rt in
  let test_time := cur_test_time vars in
  let serial_number := cur_serial_number vars in
  let '(serial_number, test_name, test_time, item_attributes) :=
    match result with
    | Some r =>
        (Some (result_serial_number r), Some (result_name r),
         or_str (start_time r) test_time,
         (attributes ++ guest_attributes (guest r))%list)
    | None => (serial_number, None, test_time, attributes)
    end in
  let '(serial_number, test_name, item_attributes, test_description, meta) :=
    match test with
    | Some t =>
        (Some (test_serial_number t),
         (if truthy test_name then test_name else Some (declared_name t)),
         (item_attributes
            ++ match contact t with
               | c :: _ => [("contact", c)]
               | [] => []
               end)%list,
         or_str (summary t) "",
         ((if truthy (web_link t) then web_link t else None),
          (if truthy (test_id t) then test_id t else None),
          Some (List.filter (fun kv => negb (re_search envar_pattern (fst kv)))
                            (environment t))))
    | None => (serial_number, test_name, item_attributes, "", (None, None, None))
    end in
  let '(test_link, test_id, env_vars) := meta in
  let* item_uuid :=
    test_item create_test launch_per_plan suite_uuid launch_uuid serial_number
      test_name test_description item_attributes env_vars test_link test_id test_time in
  let status := "SKIPPED" in
  let* (test_time, status) :=
    match result with
    | Some r =>
        let test_time := or_str (end_time r) test_time in
        let* status := upload_logs r item_uuid launch_uuid test_time status in
        ret (test_time, status)
    | None => ret (test_time, status)
    end in
  let* issueType := get_defect_type_locator (Some defect_type) in
  rp_api (PUT_item item_uuid launch_uuid test_time status issueType) ;;
  ret (mkLoopVars test_time test_time serial_number).

(** The values the launch part of [execute_rp_import] leaves in its local
    variables. *)
Record launch_vars : Type := mkLaunchVars {
  lv_launch_uuid : string;
  lv_launch_id : option string;
  lv_suite_uuid : option string;
  lv_suite_name : string;
  lv_launch_name : string;
  lv_launch_url : string
}.

(** Lines 517-557: create the launch, or look up the launch and the suite
    to upload to.  [response] is [None] while the variable is unbound. *)
Definition open_launch (create_launch : bool) (launch_name launch_description : string)
    (launch_attributes : list attribute) (launch_time : string) (launch_rerun : bool)
    (suite_id launch_id suite_uuid launch_uuid : option string) : M launch_vars :=
  let* (response, launch_uuid, launch_id, suite_vars) :=
    if create_launch then
      let* response :=
        rp_api (POST_launch launch_name launch_description launch_attributes
                  launch_time launch_rerun) in
      ret (Some response, r_id response, launch_id, (suite_uuid, ""))
    else
      let* (response, suite_vars, launch_id) :=
        if truthy suite_id then
          let* response := rp_api (GET_item (py_str suite_id)) in
          ret (Some response, (r_uuid response, py_str (r_name response)),
               r_launchId response)
        else ret (None, (suite_uuid, ""), launch_id) in
      if truthy launch_id then
        let* response := rp_api (GET_launch (py_str launch_id)) in
        ret (Some response, r_uuid response, launch_id, suite_vars)
      else ret (response, launch_uuid, launch_id, suite_vars) in
  let* (response, launch_id) :=
    if truthy launch_uuid && negb (truthy launch_id) then
      let* response := rp_api (GET_launch_uuid (py_str launch_uuid)) in
      ret (Some response, r_id response)
    else ret (response, launch_id) in
  let* launch_name :=
    if negb create_launch then
      let* response := unbound response in
      ret (or_str (r_name response) "")
    else ret launch_name in
  let* launch_uuid := assert_some launch_uuid in
  modify_data (set_launch_uuid (Some launch_uuid)) ;;
  let* d := get_data in
  let launch_url :=
    py_str (url d) +:+ "/ui/#" +:+ py_str (project d) +:+ "/launches/all/"
      +:+ py_str launch_id in
  ret (mkLaunchVars launch_uuid launch_id (fst suite_vars) (snd suite_vars)
         launch_name launch_url).

(** Lines 559-581: create the suite; the result is [suite_uuid]. *)
Definition open_suite (create_suite : bool) (suite_description : string)
    (attributes : list attribute) (launch_time launch_uuid : string)
    (suite_uuid : option string) : M (option string) :=
  let* suite_uuid :=
    if create_suite then
      let suite_name := plan_name (plan step) in
      let* response :=
        rp_api (POST_suite suite_name suite_description attributes launch_time
                  launch_uuid) in
      let* suite_uuid := assert_some (r_id response) in
      ret (Some suite_uuid)
    else ret suite_uuid in
  when (truthy suite_uuid) (modify_data (set_suite_uuid suite_uuid)) ;;
  ret suite_uuid.

(** Lines 723-747: finish the suite and the launch. *)
Definition close_plan (plans : list Plan) (create_suite launch_per_plan suite_per_plan : bool)
    (additional_upload suite_uuid : option string) (launch_uuid launch_time launch_url : string)
    : M unit :=
  when create_suite
    (rp_api (PUT_suite (if truthy suite_uuid then suite_uuid else None)
               launch_uuid launch_time) ;;
     ret tt) ;;
  let is_the_last_plan := Nat.eqb (plan_index step) (length plans - 1) in
  when is_the_last_plan (modify_data (set_defect_type None)) ;;
  let* launch_url :=
    if (launch_per_plan || (suite_per_plan && is_the_last_plan))
       && negb (truthy additional_upload)
    then
      let* response := rp_api (PUT_launch_finish launch_uuid launch_time) in
      ret (py_str (r_link response))
    else ret launch_url in
  modify_data (set_launch_url (Some launch_url)).

(** Lines 439-747.  The calls of [self.info], [self.verbose] and
    [self.debug] print and are left out. *)
Definition execute_rp_import : M unit :=
  let* plans := assert_some (my_run_plans step) in
  let launch_time := datetime in
  let launch_time :=
    match List.map (fun r => or_str (start_time r) datetime) (execute_results step) with
    | [] => launch_time
    | t :: ts => str_min t ts
    end in
  let* d := get_data in
  let suite_per_plan := suite_per_plan d in
  let launch_per_plan := effective_launch_per_plan d in
  let suite_id := upload_to_suite d in
  let launch_id := upload_to_launch d in
  let suite_uuid := suite_uuid d in
  let launch_uuid := launch_uuid d in
  let additional_upload := additional_upload d in
  let* is_the_first_plan :=
    match plans with
    | [] => raise IndexError
    | _ :: _ => ret (Nat.eqb (plan_index step) 0)
    end in
  let launch_uuid :=
    if negb (truthy launch_uuid) && suite_per_plan && negb is_the_first_plan
    then match first_plan_phases step with
         | [] => launch_uuid
         | first_phase :: _ => first_phase
         end
    else launch_uuid in
  let create_test := create_test d in
  let create_suite := create_suite d in
  let create_launch :=
    negb (truthy launch_uuid || truthy launch_id || truthy suite_uuid || truthy suite_id) in
  let launch_name := or_str (launch d) (plan_name (plan step)) in
  let launch_rerun := launch_rerun d in
  let envar_pattern := if String.eqb (exclude_variables d) "" then "$^" else exclude_variables d in
  let defect_type := or_str (defect_type d) "" in
  let* attributes := lift (comprehension first_value (_fmf_context (plan step))) in
  let* launch_attributes :=
    lift (construct_launch_attributes (my_run_plans step) suite_per_plan attributes) in
  let (launch_description, suite_description) :=
    if suite_per_plan
    then (or_str (launch_description d) "",
          append_description d (or_str (plan_summary (plan step)) ""))
    else (append_description d (or_str (plan_summary (plan step)) ""), "") in
  let (launch_description, suite_description) :=
    if truthy (artifacts_url d)
    then (launch_description +:+ "<br>" +:+ py_str (artifacts_url d),
          suite_description +:+ "<br>" +:+ py_str (artifacts_url d))
    else (launch_description, suite_description) in
  let* lv :=
    open_launch create_launch launch_name launch_description launch_attributes
      launch_time launch_rerun suite_id launch_id suite_uuid launch_uuid in
  let launch_uuid := lv_launch_uuid lv in
  let* suite_uuid :=
    open_suite create_suite suite_description attributes launch_time launch_uuid
      (lv_suite_uuid lv) in
  let* vars :=
    for_each
      (process_test create_test launch_per_plan attributes envar_pattern defect_type
         suite_uuid launch_uuid)
      (results_for_tests step)
      (mkLoopVars launch_time launch_time None) in
  close_plan plans create_suite launch_per_plan suite_per_plan additional_upload
    suite_uuid launch_uuid (cur_launch_time vars) (lv_launch_url lv).

(** Lines 749-784. *)
Definition go : M unit :=
  let* d := get_data in
  if negb (truthy (url d)) then raise (ReportError_config "url")
  else
    modify_data (set_url (Some (rstrip_slash (py_str (url d))))) ;;
    if negb (truthy (project d)) then raise (ReportError_config "project")
    else if negb (truthy (token d)) then raise (ReportError_config "token")
    else
      match my_run_plans step with
      | None => raise (ReportError_config "run")
      | Some _ =>
          check_options ;;
          let* d := get_data in
          when (negb (ssl_verify d))
            (warn ("SSL verification is disabled for all requests being made to ReportPortal instance ("
                     +:+ py_str (url d) +:+ ").")) ;;
          execute_rp_import
      end.

End Plugin.

(** A fresh invocation: nothing sent, nothing printed. *)
Definition start (d : ReportReportPortalData) : world :=
  {| trace := []; data := d; warnings := [] |}.

(** ** Notions the properties are stated with *)

(** The XML-safe code points, as the ranges are written in the
    specification. *)
Definition in_xml_safe_ranges (c : Z) : Prop :=
  c = 0x9 \/ c = 0xA \/ c = 0xD
  \/ (0x20 <= c <= 0xD7FF) \/ (0xE000 <= c <= 0xFFFD) \/ (0x10000 <= c <= 0x10FFFF).

(** The first value of a context key of a plan. *)
Definition first_context_value (p : Plan) (k : string) : option string :=
  match dict_get (_fmf_context p) k with
  | Some (v :: _) => Some v
  | _ => None
  end.

(** A context is a dictionary with at least one value per key. *)
Definition context_ok (p : Plan) : Prop :=
  List.NoDup (List.map fst (_fmf_context p))
  /\ Forall (fun kv => snd kv <> []) (_fmf_context p).

(** The first values of a well-formed context, in the order of its keys. *)
Definition first_values (p : Plan) : dict string :=
  List.map (fun kv => (fst kv, List.hd "" (snd kv))) (_fmf_context p).

(** Whether an item of the current plan is in [result_dict] with the same
    value. *)
Definition same_in (result_dict : dict string) (kv : string * string) : bool :=
  match dict_get result_dict (fst kv) with
  | Some v => String.eqb v (snd kv)
  | None => false
  end.

(** The reduction of the specification: start with the map of the first
    plan and, for each further plan, keep the entries of that plan whose key
    and value are in the map so far. *)
Definition spec_common_attributes (maps : list (dict string)) : dict string :=
  fold_left (fun acc cur => List.filter (same_in acc) cur) (List.tl maps) (List.hd [] maps).

(** The launch-per-plan / suite-per-plan pair in force in
    [execute_rp_import]. *)
Definition effective_topology (d : ReportReportPortalData) : bool * bool :=
  (effective_launch_per_plan d, suite_per_plan d).

Definition MUTUALLY_EXCLUSIVE_WARNING : string :=
  "The options '--launch-per-plan' and '--suite-per-plan' are mutually exclusive. Default option '--launch-per-plan' is used.".

(** The sub-types of the searched groups, group after group in the fixed
    order, and the sub-types whose long name is the given name up to case. *)
Definition spec_candidates (defect_types : dict (list DefectType)) : list DefectType :=
  List.flat_map (fun g => default [] (dict_get defect_types g)) GROUPS_TO_SEARCH.

Definition name_matches (lower : string -> string) (defect_type : string)
    (dt : DefectType) : bool :=
  String.eqb (lower (longName dt)) (lower defect_type).

(** Whether resolving a defect type from a given state sends GET settings. *)
Definition settings_fetched (lower : string -> string)
    (server : list request -> request -> response) (defect_type : option string)
    (w : world) : Prop :=
  In GET_settings (trace (snd (get_defect_type_locator lower server defect_type w))).

(** What an execution from [w] to [w'] has done: it has sent requests that
    all satisfy [P], and the plugin data are related by [Q]. *)
Definition steps (P : request -> Prop)
    (Q : ReportReportPortalData -> ReportReportPortalData -> Prop) (w w' : world) : Prop :=
  (exists l, trace w' = (trace w ++ l)%list /\ Forall P l) /\ Q (data w) (data w').

Definition respects (P : request -> Prop)
    (Q : ReportReportPortalData -> ReportReportPortalData -> Prop) {A : Type} (m : M A) : Prop :=
  forall w, steps P Q w (snd (m w)).

(** [is_the_last_plan] of [execute_rp_import]. *)
Definition is_the_last_plan (step : Step) (plans : list Plan) : bool :=
  Nat.eqb (plan_index step) (length plans - 1).




(** Persisted state names a suite only together with its launch: the import
    stores the launch identifier before the suite identifier, and clears
    neither. *)
Definition launch_before_suite (d : ReportReportPortalData) : Prop :=
  truthy (suite_uuid d) = true -> truthy (launch_uuid d) = true.


Definition any_data (d d' : ReportReportPortalData) : Prop := True.

(** The level of a log entry: by the position of the log in the sequence, as
    the specification words it, and by comparison of its path with the first
    path, as the code decides it. *)
Definition level_by_position (index : nat) (log_path : string) : string :=
  if Nat.eqb index 0 then "INFO" else "TRACE".

Definition level_by_path (r : Result) (index : nat) (log_path : string) : string :=
  match List.hd_error (log r) with
  | Some first => if String.eqb log_path first then "INFO" else "TRACE"
  | None => "TRACE"
  end.

(** The log entries of one log of a result: nothing for a log that cannot be
    read; otherwise the sanitised log under the general limit and, for the
    log at position 0 of a result whose outcome maps to FAILED, the sanitised
    failure text under the traceback limit, at level ERROR. *)
Definition spec_entries_of_log (bytes_repr : Z -> string) (read : string -> option text)
    (level : nat -> string -> string) (d : ReportReportPortalData) (r : Result)
    (item_uuid launch_uuid time : string) (il : nat * string) : list request :=
  match read (snd il) with
  | None => []
  | Some log_text =>
      POST_log_entry
        (_filter_log bytes_repr log_text
           (Some (mkLogFilterSettings (log_size_limit d) false)))
        item_uuid launch_uuid (level (fst il) (snd il)) time
      :: (if Nat.eqb (fst il) 0 && String.eqb (TMT_TO_RP_RESULT_STATUS (result r)) "FAILED"
          then [POST_log_entry
                  (_filter_log bytes_repr (failures r log_text)
                     (Some (mkLogFilterSettings (traceback_size_limit d) true)))
                  item_uuid launch_uuid "ERROR" time]
          else [])
  end.

Definition spec_log_entries (bytes_repr : Z -> string) (read : string -> option text)
    (level : nat -> string -> string) (d : ReportReportPortalData) (r : Result)
    (item_uuid launch_uuid time : string) : list request :=
  List.flat_map (spec_entries_of_log bytes_repr read level d r item_uuid launch_uuid time)
    (enumerate (log r)).

(** The status after the loop over the logs: the mapped outcome once a log
    has been read, the initial value otherwise. *)
Definition status_after_logs (read : string -> option text) (r : Result)
    (status : string) : string :=
  if List.existsb (fun p => match read p with Some _ => true | None => false end) (log r)
  then TMT_TO_RP_RESULT_STATUS (result r)
  else status.

(** The status the finish call of a test should carry, by the outcome table;
    an idle test is reported as skipped. *)
Definition spec_status (result_of_test : option Result) : string :=
  match result_of_test with
  | Some r => TMT_TO_RP_RESULT_STATUS (result r)
  | None => "SKIPPED"
  end.

(** The status the code sends. *)
Definition sent_status (read : string -> option text) (result_of_test : option Result)
    : string :=
  match result_of_test with
  | Some r => status_after_logs read r "SKIPPED"
  | None => "SKIPPED"
  end.

Definition not_log_entry (r : request) : Prop :=
  match r with
  | POST_log_entry _ _ _ _ _ => False
  | _ => True
  end.

(** ** The persisted map of test identifiers *)

Definition is_step (r : request) : Prop :=
  match r with
  | POST_step _ _ _ _ _ _ _ _ _ => True
  | _ => False
  end.

Definition not_step (r : request) : Prop := ~ is_step r.

Definition same_uuids (d d' : ReportReportPortalData) : Prop :=
  test_uuids d' = test_uuids d.

(** No two serial numbers have the same remote identifier. *)
Definition injective_uuids (m : gmap Z string) : Prop :=
  forall s1 s2 u, m !! s1 = Some u -> m !! s2 = Some u -> s1 = s2.

(** ReportPortal gives different identifiers to items created at different
    points of the conversation. *)
Definition fresh_ids (server : list request -> request -> response) : Prop :=
  forall h1 h2 r1 r2 u,
    is_step r1 -> is_step r2 ->
    r_id (server h1 r1) = Some u -> r_id (server h2 r2) = Some u ->
    length h1 = length h2.

(** The identifier was returned by an item creation earlier in the
    conversation. *)
Definition issued_before (server : list request -> request -> response) (w : world)
    (u : string) : Prop :=
  exists h r, is_step r /\ r_id (server h r) = Some u /\ (length h < length (trace w))%nat.

Definition uuids_inv (server : list request -> request -> response) (w : world) : Prop :=
  injective_uuids (test_uuids (data w))
  /\ forall s u, test_uuids (data w) !! s = Some u -> issued_before server w u.

Definition preserves (I : world -> Prop) {A : Type} (m : M A) : Prop :=
  forall w, I w -> I (snd (m w)).

Definition any_request (r : request) : Prop := True.

(** ** Further notions: rejected requests, payloads, persisted state *)

(** Every request of the trace was accepted by ReportPortal, given the
    requests sent before it. *)
Definition all_accepted (server : list request -> request -> response)
    (tr : list request) : Prop :=
  forall before r after, tr = (before ++ r :: after)%list -> ok (server before r) = true.

(** The last request of the trace was rejected, the ones before it were
    accepted, and [e] is the error [handle_response] raises for it. *)
Definition rejected_last (server : list request -> request -> response)
    (tr : list request) (e : exception) : Prop :=
  exists before r,
    tr = (before ++ [r])%list
    /\ all_accepted server before
    /\ ok (server before r) = false
    /\ e = ReportError_status (status_code (server before r)).

(** An outcome of a program: either everything sent was accepted, or the
    program has raised the error of a rejected request, which is the last
    request sent. *)
Definition accepted_or_stopped (server : list request -> request -> response)
    {A : Type} (out : res A * world) : Prop :=
  all_accepted server (trace (snd out))
  \/ exists e, fst out = Exc e /\ rejected_last server (trace (snd out)) e.

Definition fails_fast (server : list request -> request -> response) {A : Type}
    (m : M A) : Prop :=
  forall w, all_accepted server (trace w) -> accepted_or_stopped server (m w).

(** A log entry whose message holds XML-safe code points only. *)
Definition safe_message (r : request) : Prop :=
  match r with
  | POST_log_entry message _ _ _ _ => Forall in_xml_safe_ranges message
  | _ => True
  end.

(** The configuration [go] requires. *)
Definition configured (step : Step) (d : ReportReportPortalData) : bool :=
  truthy (url d) && truthy (project d) && truthy (token d)
  && match my_run_plans step with Some _ => true | None => false end.

(** Requests when no defect type is configured: no settings are fetched and
    every finished item gets the default locator. *)
Definition default_issue_only (r : request) : Prop :=
  match r with
  | GET_settings => False
  | PUT_item _ _ _ _ issueType => issueType = "ti001"
  | _ => True
  end.

(** [launch_uuid] of [execute_rp_import] once the launch of the first plan
    has been taken over (lines 468-474), and [create_launch] (line 478). *)
Definition inherited_launch_uuid (step : Step) (d : ReportReportPortalData) : option string :=
  if negb (truthy (launch_uuid d)) && suite_per_plan d && negb (Nat.eqb (plan_index step) 0)
  then match first_plan_phases step with
       | [] => launch_uuid d
       | first_phase :: _ => first_phase
       end
  else launch_uuid d.

Definition create_launch (step : Step) (d : ReportReportPortalData) : bool :=
  negb (truthy (inherited_launch_uuid step d) || truthy (upload_to_launch d)
        || truthy (suite_uuid d) || truthy (upload_to_suite d)).

(** Requests that create a launch or a suite, or finish a suite, only under
    the conditions [cl] and [cs]. *)
Definition creates_only_if (cl cs : bool) (r : request) : Prop :=
  match r with
  | POST_launch _ _ _ _ _ => cl = true
  | POST_suite _ _ _ _ _ => cs = true
  | PUT_suite _ _ _ => cs = true
  | _ => True
  end.

(** The serial number a (result, test) pair of the loop is filed under: the
    one of the test when there is a test, else the one of the result. *)
Definition pair_serial (rt : option Result * option Test) : option Z :=
  match snd rt with
  | Some t => Some (test_serial_number t)
  | None => option_map result_serial_number (fst rt)
  end.

(** The map of test identifiers loses no entry. *)
Definition keeps_entries (d d' : ReportReportPortalData) : Prop :=
  forall s, is_Some (test_uuids d !! s) -> is_Some (test_uuids d' !! s).

(** What the item created for a pair of a result and a test carries: the
    attributes of the plan, then those of the guest of the result, then the
    first contact of the test; and as parameters the environment of the test
    without the variables whose names match the exclusion pattern. *)
Definition contact_attribute (test : option Test) : list attribute :=
  match test with
  | Some t => match contact t with c :: _ => [("contact", c)] | [] => [] end
  | None => []
  end.

Definition item_attributes_of (attributes : list attribute)
    (rt : option Result * option Test) : list attribute :=
  (attributes
   ++ match fst rt with Some r => guest_attributes (guest r) | None => [] end
   ++ contact_attribute (snd rt))%list.

Definition parameters_of (re_search : string -> string -> bool) (pattern : string)
    (rt : option Result * option Test) : option (list attribute) :=
  option_map
    (fun t => List.filter (fun kv => negb (re_search pattern (fst kv))) (environment t))
    (snd rt).

(** Requests whose payload is that of the plan and of one of the pairs. *)
Definition item_payload (re_search : string -> string -> bool)
    (attributes : list attribute) (pattern : string)
    (pairs : list (option Result * option Test)) (r : request) : Prop :=
  match r with
  | POST_step _ _ _ item_attributes parameters _ _ _ _ =>
      exists rt, In rt pairs
                 /\ item_attributes = item_attributes_of attributes rt
                 /\ parameters = parameters_of re_search pattern rt
  | POST_suite _ _ suite_attributes _ _ => suite_attributes = attributes
  | _ => True
  end.

(** The payload of the items created for a plan with context attributes
    [attributes] under the exclusion pattern [pattern]: a test item carries
    the attributes of the plan first and no parameter whose key matches the
    pattern, a suite carries the attributes of the plan. *)
Definition plan_payload (re_search : string -> string -> bool)
    (attributes : list attribute) (pattern : string) (r : request) : Prop :=
  match r with
  | POST_step _ _ _ item_attributes parameters _ _ _ _ =>
      (exists more, item_attributes = (attributes ++ more)%list)
      /\ forall l kv, parameters = Some l -> In kv l -> re_search pattern (fst kv) = false
  | POST_suite _ _ suite_attributes _ _ => suite_attributes = attributes
  | _ => True
  end.

(** [envar_pattern] of [execute_rp_import] (line 485). *)
Definition envar_pattern (d : ReportReportPortalData) : string :=
  if String.eqb (exclude_variables d) "" then "$^" else exclude_variables d.

(** Requests that name a launch name the launch [lu]. *)
Definition carries_launch (lu : string) (r : request) : Prop :=
  match r with
  | POST_suite _ _ _ _ launchUuid => launchUuid = lu
  | POST_step _ _ _ _ _ _ launchUuid _ _ => launchUuid = lu
  | POST_log_entry _ _ launchUuid _ _ => launchUuid = lu
  | PUT_item _ launchUuid _ _ _ => launchUuid = lu
  | PUT_suite _ launchUuid _ => launchUuid = lu
  | PUT_launch_finish launch_uuid _ => launch_uuid = lu
  | _ => True
  end.

(** The requests that create or look up the launch and the suite to upload
    to. *)
Definition launch_lookup (r : request) : Prop :=
  match r with
  | POST_launch _ _ _ _ _ | GET_item _ | GET_launch _ | GET_launch_uuid _ => True
  | _ => False
  end.

Definition same_launch_uuid (d d' : ReportReportPortalData) : Prop :=
  launch_uuid d' = launch_uuid d.

Definition not_post_launch (r : request) : Prop :=
  match r with
  | POST_launch _ _ _ _ _ => False
  | _ => True
  end.

(** Nothing but the first request creates a launch. *)
Definition launch_first (l : list request) : Prop :=
  match l with
  | [] => True
  | _ :: rest => Forall not_post_launch rest
  end.

(** Log entries and finish calls that name a test item name [item_uuid]. *)
Definition refers_to (item_uuid : string) (r : request) : Prop :=
  match r with
  | POST_log_entry _ itemUuid _ _ _ => itemUuid = item_uuid
  | PUT_item item _ _ _ _ => item = item_uuid
  | _ => True
  end.

(** ** Concrete inputs *)

Module Ex.

(** Sizes printed as a decimal number of bytes. *)
Definition bytes_repr (n : Z) : string :=
  NilZero.string_of_int (Z.to_int n) +:+ " byte".

Definition bytes (n : Z) : Size := UNITS_bytes bytes_repr n.

(** Lower case of the ASCII letters. *)
Definition ascii_lower (c : ascii) : ascii :=
  let n := nat_of_ascii c in
  if Nat.leb 65 n && Nat.leb n 90 then ascii_of_nat (n + 32) else c.

Fixpoint lower (s : string) : string :=
  match s with
  | EmptyString => EmptyString
  | String c r => String (ascii_lower c) (lower r)
  end.

(** The default exclusion pattern: keys that start with TMT_. *)
Definition re_search (pattern key : string) : bool := String.prefix "TMT_" key.

(** U+00E9, two bytes in UTF-8. *)
Definition e_acute : Z := 0xE9.

Definition eee : text := [e_acute; e_acute; e_acute].

Definition plan_abc1 : Plan := mkPlan "/plans/one" None [("a", ["1"]); ("b", ["2"])].
Definition plan_abc2 : Plan := mkPlan "/plans/two" None [("a", ["1"]); ("b", ["3"])].
Definition plan_abc3 : Plan := mkPlan "/plans/three" None [("a", ["1"]); ("b", ["2"])].

Definition data0 : ReportReportPortalData :=
  mkData (Some "https://rp.example/") (Some "token") (Some "tmt") None None
    false false None None false None
    DEFAULT_LOG_SIZE_LIMIT DEFAULT_TRACEBACK_SIZE_LIMIT "^TMT_.*" None true
    None None None ∅.

(** Both topology flags requested. *)
Definition data_both : ReportReportPortalData :=
  mkData (Some "https://rp.example/") (Some "token") (Some "tmt") None None
    true true None None false None
    DEFAULT_LOG_SIZE_LIMIT DEFAULT_TRACEBACK_SIZE_LIMIT "^TMT_.*" None true
    None None None ∅.

Definition subtypes : dict (list DefectType) :=
  [("TO_INVESTIGATE", [mkDefectType "ti001" "To Investigate"]);
   ("NO_DEFECT", [mkDefectType "nd001" "No Defect"]);
   ("SYSTEM_ISSUE", [mkDefectType "si001" "System Issue"]);
   ("AUTOMATION_BUG", [mkDefectType "ab001" "Automation Bug";
                       mkDefectType "ab_idle" "Idle"]);
   ("PRODUCT_BUG", [mkDefectType "pb001" "Product Bug"])].

Definition plain (id uuid name launchId link : option string) : response :=
  mkResponse true 200 id uuid name launchId link None.

Definition decimal (n : nat) : string := NilZero.string_of_int (Z.to_int (Z.of_nat n)).

(** A ReportPortal instance that accepts every request; a created item
    gets the number of the requests received so far as its identifier. *)
Definition server_with (settings : option (dict (list DefectType)))
    (h : list request) (r : request) : response :=
  match r with
  | POST_launch _ _ _ _ _ => plain (Some "launch-uuid") None None None None
  | GET_item _ => plain None (Some "suite-uuid") (Some "suite") (Some "17") None
  | GET_launch _ => plain None (Some "launch-uuid") (Some "nightly") None None
  | GET_launch_uuid u => plain (Some "17") (Some u) (Some "nightly") None None
  | POST_suite _ _ _ _ _ => plain (Some ("suite-" +:+ decimal (length h))) None None None None
  | POST_step _ _ _ _ _ _ _ _ _ =>
      plain (Some ("item-" +:+ decimal (length h))) None None None None
  | PUT_launch_finish _ _ =>
      plain None None None None (Some "https://rp.example/ui/#tmt/launches/all/17")
  | GET_settings => mkResponse true 200 None None None None None settings
  | _ => plain None None None None None
  end.

Definition server : list request -> request -> response := server_with (Some subtypes).

(** The settings of the project list no defect sub-types. *)
Definition server_no_subtypes : list request -> request -> response := server_with None.

(** The settings list a sub-type named Idle whose locator is empty. *)
Definition subtypes_empty_locator : dict (list DefectType) :=
  [("TO_INVESTIGATE", [mkDefectType "ti001" "To Investigate"]);
   ("NO_DEFECT", [mkDefectType "nd001" "No Defect"]);
   ("SYSTEM_ISSUE", [mkDefectType "si001" "System Issue"]);
   ("AUTOMATION_BUG", [mkDefectType "ab001" "Automation Bug";
                       mkDefectType "" "Idle"]);
   ("PRODUCT_BUG", [mkDefectType "pb001" "Product Bug"])].

Definition server_empty_locator : list request -> request -> response :=
  server_with (Some subtypes_empty_locator).

Definition guest0 : Guest := mkGuest None "default-0" None.

Definition hello : text := text_of_string "hello".

(** The files of the run: two logs can be read, the third cannot. *)
Definition read (path : string) : option text :=
  if String.eqb path "output.txt" then Some hello
  else if String.eqb path "journal.txt" then Some (text_of_string "kernel: ok")
  else None.

Definition result_pass : Result :=
  mkResult 1 "/tests/pass" PASS (Some "2024-05-01T10:00:00") (Some "2024-05-01T10:00:05")
    ["output.txt"] guest0 (fun log => log).

Definition result_fail : Result :=
  mkResult 2 "/tests/fail" FAIL (Some "2024-05-01T10:00:06") (Some "2024-05-01T10:00:09")
    ["output.txt"; "journal.txt"] guest0 (fun log => firstn 4 log).

Definition test_pass : Test := mkTest 1 "/tests/pass" [] None None None [].
Definition test_fail : Test := mkTest 2 "/tests/fail" [] None None None [].

(** A run of one plan with two tests, one passed and one failed. *)
Definition step_single : Step :=
  mkStep plan_abc1 (Some [plan_abc1]) 0 [] [result_pass; result_fail]
    [(Some result_pass, Some test_pass); (Some result_fail, Some test_fail)] read.

(** A result that lists the same log twice. *)
Definition result_twice : Result :=
  mkResult 3 "/tests/twice" PASS (Some "2024-05-01T10:00:10") (Some "2024-05-01T10:00:12")
    ["output.txt"; "output.txt"] guest0 (fun log => log).

Definition step_twice : Step :=
  mkStep plan_abc1 (Some [plan_abc1]) 0 [] [result_twice] [(Some result_twice, None)] read.

(** A passed result without logs, and a failed result whose only log cannot
    be read. *)
Definition result_nolog : Result :=
  mkResult 4 "/tests/nolog" PASS (Some "2024-05-01T10:00:20") (Some "2024-05-01T10:00:21")
    [] guest0 (fun log => log).

Definition result_unreadable : Result :=
  mkResult 5 "/tests/unreadable" FAIL (Some "2024-05-01T10:00:22")
    (Some "2024-05-01T10:00:23") ["missing.txt"] guest0 (fun log => log).

Definition test_nolog : Test := mkTest 4 "/tests/nolog" [] None None None [].
Definition test_unreadable : Test := mkTest 5 "/tests/unreadable" [] None None None [].

Definition step_nolog : Step :=
  mkStep plan_abc1 (Some [plan_abc1]) 0 [] [result_nolog; result_unreadable]
    [(Some result_nolog, Some test_nolog); (Some result_unreadable, Some test_unreadable)]
    read.

(** Two results of one test, as a test run on two guests gives. *)
Definition guest1 : Guest := mkGuest (Some "10.0.0.2") "client" (Some "client").

Definition result_pass_client : Result :=
  mkResult 1 "/tests/pass" PASS (Some "2024-05-01T10:00:30") (Some "2024-05-01T10:00:35")
    ["output.txt"] guest1 (fun log => log).

(** A test with two contacts and an environment, run on the guest client. *)
Definition result_owned : Result :=
  mkResult 5 "/tests/owned" PASS (Some "2024-05-01T10:00:40") (Some "2024-05-01T10:00:45")
    ["output.txt"] guest1 (fun log => log).

Definition test_owned : Test :=
  mkTest 5 "/tests/owned" ["owner@example.org"; "second@example.org"]
    (Some "An owned test") None None
    [("TMT_TREE", "/var/tmp/tree"); ("ARCH", "x86_64")].

Definition step_owned : Step :=
  mkStep plan_abc1 (Some [plan_abc1]) 0 [] [result_owned]
    [(Some result_owned, Some test_owned)] read.

Definition step_only_first : Step :=
  mkStep plan_abc1 (Some [plan_abc1]) 0 [] [result_pass]
    [(Some result_pass, Some test_pass)] read.

Definition step_two_guests : Step :=
  mkStep plan_abc1 (Some [plan_abc1]) 0 [] [result_pass; result_pass_client]
    [(Some result_pass, Some test_pass); (Some result_pass_client, Some test_pass)] read.

(** A ReportPortal instance that gives every created item the same
    identifier. *)
Definition server_same_id (h : list request) (r : request) : response :=
  match r with
  | POST_step _ _ _ _ _ _ _ _ _ => plain (Some "item") None None None None
  | _ => server h r
  end.

(** Identifiers in unary: as many strokes as requests received. *)
Fixpoint tally (n : nat) : string :=
  match n with
  | O => EmptyString
  | S n => String "i" (tally n)
  end.

Definition server_tally (h : list request) (r : request) : response :=
  match r with
  | POST_step _ _ _ _ _ _ _ _ _ => plain (Some (tally (length h))) None None None None
  | _ => server h r
  end.

Definition run (server : list request -> request -> response) (step : Step)
    (d : ReportReportPortalData) : res unit * world :=
  execute_rp_import bytes_repr lower re_search "2024-05-01T12:00:00" server step (start d).

End Ex.

Module Ex2.

(** No URL configured. *)
Definition data_no_url : ReportReportPortalData :=
  mkData None (Some "token") (Some "tmt") None None
    false false None None false None
    DEFAULT_LOG_SIZE_LIMIT DEFAULT_TRACEBACK_SIZE_LIMIT "^TMT_.*" None true
    None None None ∅.

(** A plan whose context has a key without a value. *)
Definition plan_no_value : Plan := mkPlan "/plans/broken" None [("a", ["1"]); ("b", [])].

Definition step_no_value : Step :=
  mkStep plan_no_value (Some [plan_no_value]) 0 [] [] [] Ex.read.

Definition limit_3 : LogFilterSettings := mkLogFilterSettings (mkSize 3 "3 byte") false.

End Ex2.

(** * Properties *)

(** ** Log sanitisation *)

Lemma xml_safe_ranges (c : Z) : xml_safe c = true <-> in_xml_safe_ranges c.
Proof. unfold xml_safe, in_xml_safe_ranges. split; intros H; lia. Qed.

Lemma xml_safe_not_surrogate (c : Z) : xml_safe c = true -> is_surrogate c = false.
Proof. unfold xml_safe, is_surrogate. lia. Qed.

Lemma py_slice_to_firstn {A : Type} (n : Z) (l : list A) :
  0 <= n -> py_slice_to n l = firstn (Z.to_nat n) l.
Proof. intros H. unfold py_slice_to. destruct (Z.ltb_spec n 0); [lia | reflexivity]. Qed.

Lemma py_slice_to_length {A : Type} (n : Z) (l : list A) :
  0 <= n -> Z.of_nat (length (py_slice_to n l)) <= n.
Proof.
  intros H. rewrite py_slice_to_firstn by assumption.
  rewrite List.length_firstn. lia.
Qed.

(** The size filter is governed by the number of code points: it truncates
    exactly when there are more code points than the limit has bytes, and
    then keeps as many code points as the limit has bytes. *)
Lemma _filter_log_per_size_by_length (bytes_repr : Z -> string) (data : text)
    (settings : LogFilterSettings) :
  (Z.of_nat (length data) <= to_bytes (size settings) ->
   _filter_log_per_size bytes_repr data settings = data)
  /\ (to_bytes (size settings) < Z.of_nat (length data) ->
      _filter_log_per_size bytes_repr data settings
      = (text_of_string
           (size_header (UNITS_bytes bytes_repr (Z.of_nat (length data))) settings)
           ++ py_slice_to (to_bytes (size settings)) data)%list).
Proof.
  unfold _filter_log_per_size; cbn [to_bytes UNITS_bytes].
  split; intros H.
  - destruct (Z.ltb_spec (to_bytes (size settings)) (Z.of_nat (length data))); [lia | reflexivity].
  - destruct (Z.ltb_spec (to_bytes (size settings)) (Z.of_nat (length data))); [reflexivity | lia].
Qed.

Lemma _filter_log_unfold (bytes_repr : Z -> string) (log : text)
    (settings : option LogFilterSettings) :
  _filter_log bytes_repr log settings
  = _filter_invalid_chars
      (_filter_log_per_size bytes_repr log (default default_LogFilterSettings settings))
      (default default_LogFilterSettings settings).
Proof. destruct settings; reflexivity. Qed.

(** C1 (the code departs from the claim). The text of three U+00E9 is six
    bytes long. With a limit of four bytes the size filter returns it
    unchanged, although its byte length exceeds the limit; with a limit of
    two bytes the filter truncates, but what it keeps after the banner is
    two code points, four bytes, more than the limit: the code counts and
    cuts code points where the claim, and the help text of the option,
    speak of bytes. *)
Theorem C1_size_filter_counts_code_points (bytes_repr : Z -> string) :
  spec_byte_length Ex.eee = 6
  /\ _filter_log_per_size bytes_repr Ex.eee (mkLogFilterSettings (mkSize 4 "4 byte") false)
     = Ex.eee
  /\ exists banner,
       _filter_log_per_size bytes_repr Ex.eee (mkLogFilterSettings (mkSize 2 "2 byte") false)
       = (banner ++ [Ex.e_acute; Ex.e_acute])%list
       /\ spec_byte_length [Ex.e_acute; Ex.e_acute] = 4.
Proof.
  split; [reflexivity |]. split; [reflexivity |].
  eexists. split; reflexivity.
Qed.

(** C6. [_filter_log] applies the size filter and then the invalid-character
    filter; whatever the text, the settings and the size, every code point
    of its output lies in the XML-safe ranges, and none is a surrogate. *)
Theorem C6_filter_log_output_is_xml_safe (bytes_repr : Z -> string) (log : text)
    (settings : option LogFilterSettings) :
  let s := default default_LogFilterSettings settings in
  _filter_log bytes_repr log settings
  = _filter_invalid_chars (_filter_log_per_size bytes_repr log s) s
  /\ Forall in_xml_safe_ranges (_filter_log bytes_repr log settings)
  /\ Forall (fun c => ~ (0xD800 <= c <= 0xDFFF)) (_filter_log bytes_repr log settings).
Proof.
  intros s. split; [apply _filter_log_unfold |].
  rewrite _filter_log_unfold. fold s. unfold _filter_invalid_chars.
  split; apply List.Forall_forall; intros c Hc; apply List.filter_In in Hc as [_ Hc].
  - now apply xml_safe_ranges.
  - apply xml_safe_ranges in Hc. unfold in_xml_safe_ranges in Hc. lia.
Qed.

(** ** Topology options *)

(** C9. After [check_options], exactly one of launch-per-plan and
    suite-per-plan is in force in [execute_rp_import]; when both flags are
    requested, suite-per-plan is set to false, the warning is printed and
    launch-per-plan is used; when neither is requested, launch-per-plan is
    used.  [check_options] never fails and sends nothing. *)
Theorem C9_exactly_one_topology (w : world) :
  let d := data w in
  let w' := snd (check_options w) in
  fst (check_options w) = Val tt
  /\ trace w' = trace w
  /\ xorb (fst (effective_topology (data w'))) (snd (effective_topology (data w'))) = true
  /\ (launch_per_plan d = true -> suite_per_plan d = true ->
      suite_per_plan (data w') = false
      /\ effective_topology (data w') = (true, false)
      /\ In MUTUALLY_EXCLUSIVE_WARNING (warnings w'))
  /\ (launch_per_plan d = false -> suite_per_plan d = false ->
      effective_topology (data w') = (true, false)).
Proof.
  destruct w as [tr d ws].
  destruct d as [u tk pj la ld lpp spp utl uts lr dt lsl tsl ev au ssl lu luu su tu].
  unfold check_options, effective_topology, effective_launch_per_plan,
    bind, get_data, when, warn, modify_data, ret, MUTUALLY_EXCLUSIVE_WARNING.
  destruct lpp, spp, lr, utl as [[|? ?]|], uts as [[|? ?]|]; cbn;
    repeat split; intros; try discriminate; repeat split;
    rewrite ?List.in_app_iff; cbn; auto 10.
Qed.

Lemma C9_exactly_one_topology_witness :
  let w' := snd (check_options (start Ex.data_both)) in
  suite_per_plan (data w') = false
  /\ effective_topology (data w') = (true, false)
  /\ In MUTUALLY_EXCLUSIVE_WARNING (warnings w').
Proof.
  exact (proj1 (proj2 (proj2 (proj2 (C9_exactly_one_topology (start Ex.data_both)))))
           eq_refl eq_refl).
Defined.

(** ** Launch attributes *)

Lemma fold_left_pointwise {A B : Type} (f g : A -> B -> A) (l : list B) (a : A) :
  (forall a b, f a b = g a b) -> fold_left f l a = fold_left g l a.
Proof.
  intros H. revert a. induction l as [|b l IH]; intros a; cbn; [reflexivity |].
  now rewrite H, IH.
Qed.

Section Dicts.

Context {V : Type}.

Lemma dict_get_not_in (d : dict V) (k : string) :
  ~ In k (List.map fst d) -> dict_get d k = None.
Proof.
  induction d as [|[k' v'] d IH]; cbn; [reflexivity |].
  intros H. destruct (String.eqb_spec k' k) as [->|Hne].
  - exfalso. apply H. now left.
  - apply IH. intros Hin. apply H. now right.
Qed.

Lemma dict_get_some_in (d : dict V) (k : string) (v : V) :
  dict_get d k = Some v -> In (k, v) d.
Proof.
  induction d as [|[k' v'] d IH]; cbn; [discriminate |].
  destruct (String.eqb_spec k' k) as [->|Hne].
  - intros [= ->]. now left.
  - intros H. right. now apply IH.
Qed.

Lemma dict_get_in (d : dict V) (k : string) (v : V) :
  List.NoDup (List.map fst d) -> In (k, v) d -> dict_get d k = Some v.
Proof.
  induction d as [|[k' v'] d IH]; cbn; [intros _ [] |].
  intros Hnd [Heq|Hin].
  - injection Heq as -> ->. now rewrite String.eqb_refl.
  - apply List.NoDup_cons_iff in Hnd as [Hfresh Hnd].
    destruct (String.eqb_spec k' k) as [->|Hne].
    + exfalso. apply Hfresh. apply List.in_map_iff. now exists (k, v).
    + now apply IH.
Qed.

Lemma dict_set_fresh (d : dict V) (k : string) (v : V) :
  ~ In k (List.map fst d) -> dict_set d k v = (d ++ [(k, v)])%list.
Proof.
  induction d as [|[k' v'] d IH]; cbn; [reflexivity |].
  intros H. destruct (String.eqb_spec k' k) as [->|Hne].
  - exfalso. apply H. now left.
  - f_equal. apply IH. intros Hin. apply H. now right.
Qed.

(** A loop that stores some of the items of a dictionary in another one
    builds the list of the items it stores. *)
Lemma fold_dict_set_filter (keep : string * V -> bool) (l acc : dict V) :
  List.NoDup (List.map fst (acc ++ l)) ->
  fold_left (fun d kv => if keep kv then dict_set d (fst kv) (snd kv) else d) l acc
  = (acc ++ List.filter keep l)%list.
Proof.
  revert acc. induction l as [|[k v] l IH]; intros acc Hnd; cbn [fold_left List.filter].
  - now rewrite List.app_nil_r.
  - assert (Hnd' : List.NoDup (List.map fst ((acc ++ [(k, v)]) ++ l))).
    { now rewrite <- List.app_assoc. }
    assert (Hfresh : ~ In k (List.map fst acc)).
    { rewrite List.map_app in Hnd. cbn in Hnd.
      apply List.NoDup_remove_2 in Hnd. intros Hin. apply Hnd.
      apply List.in_or_app. now left. }
    destruct (keep (k, v)); cbn [fst snd].
    + rewrite dict_set_fresh by assumption. rewrite IH by assumption.
      now rewrite <- List.app_assoc.
    + apply IH. rewrite List.map_app in *. cbn in Hnd.
      now apply List.NoDup_remove_1 in Hnd.
Qed.

End Dicts.

Lemma common_items_filter (result_dict current_plan : dict string) :
  List.NoDup (List.map fst current_plan) ->
  common_items result_dict current_plan = List.filter (same_in result_dict) current_plan.
Proof.
  intros Hnd. unfold common_items.
  change (List.filter (same_in result_dict) current_plan)
    with ([] ++ List.filter (same_in result_dict) current_plan)%list.
  rewrite <- (fold_dict_set_filter (same_in result_dict) current_plan []) by assumption.
  apply fold_left_pointwise. intros d kv. unfold same_in.
  destruct (dict_get result_dict (fst kv)); reflexivity.
Qed.

Lemma NoDup_keys_filter {V : Type} (f : string * V -> bool) (d : dict V) :
  List.NoDup (List.map fst d) -> List.NoDup (List.map fst (List.filter f d)).
Proof.
  induction d as [|[k v] d IH]; cbn; [trivial |].
  intros Hnd. apply List.NoDup_cons_iff in Hnd as [Hfresh Hnd].
  destruct (f (k, v)); cbn; [|now apply IH].
  constructor; [|now apply IH].
  intros Hin. apply Hfresh. apply List.in_map_iff in Hin as [[k' v'] [Hk Hin]].
  apply List.filter_In in Hin as [Hin _]. apply List.in_map_iff. now exists (k', v').
Qed.

Lemma common_items_get (result_dict current_plan : dict string) (k v : string) :
  List.NoDup (List.map fst current_plan) ->
  dict_get (common_items result_dict current_plan) k = Some v
  <-> dict_get result_dict k = Some v /\ dict_get current_plan k = Some v.
Proof.
  intros Hnd. rewrite common_items_filter by assumption. split.
  - intros H. apply dict_get_some_in in H. apply List.filter_In in H as [Hin Hsame].
    unfold same_in in Hsame. cbn in Hsame.
    destruct (dict_get result_dict k) as [v'|] eqn:Hget; [|discriminate].
    apply String.eqb_eq in Hsame as ->. split; [reflexivity |].
    now apply dict_get_in.
  - intros [Hres Hcur]. apply dict_get_in; [now apply NoDup_keys_filter |].
    apply List.filter_In. split; [now apply dict_get_some_in |].
    unfold same_in. cbn. rewrite Hres. apply String.eqb_refl.
Qed.

Lemma fold_common_items_get (rest : list (dict string)) (first : dict string) (k v : string) :
  Forall (fun m => List.NoDup (List.map fst m)) rest ->
  dict_get (fold_left common_items rest first) k = Some v
  <-> dict_get first k = Some v /\ forall m, In m rest -> dict_get m k = Some v.
Proof.
  revert first. induction rest as [|cur rest IH]; intros first Hnd; cbn [fold_left].
  - split; [intros H; split; [assumption | intros m []] | now intros [H _]].
  - apply List.Forall_cons_iff in Hnd as [Hcur Hrest].
    rewrite IH by assumption. rewrite common_items_get by assumption. split.
    + intros [[Hf Hc] Hall]. split; [assumption |].
      intros m [<-|Hin]; [assumption | now apply Hall].
    + intros [Hf Hall]. split; [split; [assumption | apply Hall; now left] |].
      intros m Hin. apply Hall. now right.
Qed.

Lemma fold_common_items_NoDup (rest : list (dict string)) (first : dict string) :
  List.NoDup (List.map fst first) ->
  Forall (fun m => List.NoDup (List.map fst m)) rest ->
  List.NoDup (List.map fst (fold_left common_items rest first)).
Proof.
  revert first. induction rest as [|cur rest IH]; intros first Hf Hnd; cbn [fold_left].
  - assumption.
  - apply List.Forall_cons_iff in Hnd as [Hcur Hrest].
    apply IH; [|assumption].
    rewrite common_items_filter by assumption. now apply NoDup_keys_filter.
Qed.

Lemma comprehension_first_value (ctx : dict (list string)) :
  Forall (fun kv => snd kv <> []) ctx ->
  comprehension first_value ctx
  = Val (List.map (fun kv => (fst kv, List.hd "" (snd kv))) ctx).
Proof.
  induction ctx as [|[k vs] ctx IH]; intros Hok; cbn; [reflexivity |].
  apply List.Forall_cons_iff in Hok as [Hvs Hok]. cbn in Hvs.
  unfold first_value at 1. cbn. destruct vs as [|v vs]; [contradiction |].
  now rewrite IH.
Qed.

Lemma first_values_keys (p : Plan) :
  List.map fst (first_values p) = List.map fst (_fmf_context p).
Proof. unfold first_values. rewrite List.map_map. reflexivity. Qed.

Lemma fold_dict_set_all {V : Type} (l : dict V) :
  List.NoDup (List.map fst l) ->
  fold_left (fun d kv => dict_set d (fst kv) (snd kv)) l [] = l.
Proof.
  intros Hnd.
  transitivity ([] ++ List.filter (fun _ : string * V => true) l)%list.
  - rewrite <- (fold_dict_set_filter (fun _ => true) l []) by assumption.
    now apply fold_left_pointwise.
  - cbn. clear. induction l as [|x l IH]; cbn; [reflexivity | now rewrite IH].
Qed.

Lemma merged_plan_ok (p : Plan) : context_ok p -> merged_plan p = Val (first_values p).
Proof.
  intros [Hnd Hok]. unfold merged_plan. rewrite comprehension_first_value by assumption.
  f_equal. fold (first_values p). apply fold_dict_set_all.
  now rewrite first_values_keys.
Qed.

Lemma first_values_get (p : Plan) (k : string) :
  Forall (fun kv => snd kv <> []) (_fmf_context p) ->
  dict_get (first_values p) k = first_context_value p k.
Proof.
  unfold first_values, first_context_value.
  induction (_fmf_context p) as [|[k' vs] ctx IH]; intros Hok; cbn; [reflexivity |].
  apply List.Forall_cons_iff in Hok as [Hvs Hok]. cbn in Hvs.
  destruct (String.eqb k' k); [|now apply IH].
  destruct vs; [contradiction | reflexivity].
Qed.

Lemma comprehension_merged_plan (plans : list Plan) :
  Forall context_ok plans ->
  comprehension merged_plan plans = Val (List.map first_values plans).
Proof.
  induction plans as [|p plans IH]; intros Hok; cbn; [reflexivity |].
  apply List.Forall_cons_iff in Hok as [Hp Hok].
  rewrite merged_plan_ok by assumption. now rewrite IH.
Qed.

Lemma fold_common_items_spec (rest : list (dict string)) (first : dict string) :
  Forall (fun m => List.NoDup (List.map fst m)) rest ->
  fold_left common_items rest first
  = fold_left (fun acc cur => List.filter (same_in acc) cur) rest first.
Proof.
  revert first. induction rest as [|cur rest IH]; intros first Hnd; cbn [fold_left].
  - reflexivity.
  - apply List.Forall_cons_iff in Hnd as [Hcur Hrest].
    rewrite common_items_filter by assumption. now apply IH.
Qed.

Lemma first_values_NoDup (plans : list Plan) :
  Forall context_ok plans ->
  Forall (fun m => List.NoDup (List.map fst m)) (List.map first_values plans).
Proof.
  intros Hok. apply List.Forall_map. eapply List.Forall_impl; [|exact Hok].
  intros p [Hnd _]. now rewrite first_values_keys.
Qed.

(** C3. In suite-per-plan topology the launch attributes are the reduction
    of the per-plan maps of first context values over all the plans of the
    run: a key/value pair is a launch attribute exactly when every plan has
    that first value for that key.  The three plans {a:1,b:2}, {a:1,b:3},
    {a:1,b:2} give exactly {a:1}.  Otherwise the attributes are those of the
    current plan, unchanged. *)
Theorem C3_launch_attributes (plans : list Plan) (attributes : list attribute) :
  plans <> [] ->
  Forall context_ok plans ->
  (exists common,
      construct_launch_attributes (Some plans) true attributes = Val common
      /\ common = spec_common_attributes (List.map first_values plans)
      /\ List.NoDup (List.map fst common)
      /\ forall k v,
           In (k, v) common <-> forall p, In p plans -> first_context_value p k = Some v)
  /\ construct_launch_attributes (Some [Ex.plan_abc1; Ex.plan_abc2; Ex.plan_abc3]) true
       attributes = Val [("a", "1")]
  /\ (forall my_run, construct_launch_attributes my_run false attributes = Val attributes)
  /\ (forall p, In p plans ->
        comprehension first_value (_fmf_context p) = Val (first_values p)).
Proof.
  intros Hne Hok. split; [|split; [reflexivity | split]].
  - destruct plans as [|p rest]; [contradiction |].
    pose proof (first_values_NoDup _ Hok) as Hnd.
    cbn [List.map] in Hnd. apply List.Forall_cons_iff in Hnd as [Hp Hrest].
    unfold construct_launch_attributes. rewrite comprehension_merged_plan by assumption.
    cbn [List.map]. eexists. split; [reflexivity |].
    split; [now apply fold_common_items_spec |].
    split; [now apply fold_common_items_NoDup |].
    intros k v.
    assert (Hget : In (k, v) (fold_left common_items (List.map first_values rest) (first_values p))
                   <-> dict_get (fold_left common_items (List.map first_values rest)
                                   (first_values p)) k = Some v).
    { split; [apply dict_get_in; now apply fold_common_items_NoDup | apply dict_get_some_in]. }
    rewrite Hget, fold_common_items_get by assumption.
    assert (Hvals : forall q, In q (p :: rest) ->
                      dict_get (first_values q) k = first_context_value q k).
    { intros q Hq. apply first_values_get.
      rewrite List.Forall_forall in Hok. now destruct (Hok q Hq). }
    split.
    + intros [Hfirst Hall] q [<-|Hq].
      * rewrite <- Hvals by now left. assumption.
      * rewrite <- Hvals by now right. apply Hall. now apply List.in_map.
    + intros Hall. split.
      * rewrite Hvals by now left. apply Hall. now left.
      * intros m Hm. apply List.in_map_iff in Hm as [q [<- Hq]].
        rewrite Hvals by now right. apply Hall. now right.
  - intros my_run. unfold construct_launch_attributes. reflexivity.
  - intros p Hp. rewrite List.Forall_forall in Hok. destruct (Hok p Hp) as [_ Hvs].
    now apply comprehension_first_value.
Qed.

Lemma C3_launch_attributes_witness :
  exists common,
    construct_launch_attributes (Some [Ex.plan_abc1; Ex.plan_abc2; Ex.plan_abc3]) true []
    = Val common
    /\ forall k v,
         In (k, v) common
         <-> forall p, In p [Ex.plan_abc1; Ex.plan_abc2; Ex.plan_abc3] ->
                       first_context_value p k = Some v.
Proof.
  assert (Hne : [Ex.plan_abc1; Ex.plan_abc2; Ex.plan_abc3] <> []) by discriminate.
  assert (Hok : Forall context_ok [Ex.plan_abc1; Ex.plan_abc2; Ex.plan_abc3]).
  { repeat constructor; cbn; try discriminate; intros H; cbn in H;
      repeat (destruct H as [H|H]; try discriminate); assumption. }
  destruct (C3_launch_attributes _ [] Hne Hok) as [[common [Hc [_ [_ Hin]]]] _].
  exists common. split; assumption.
Defined.

(** ** Defect types *)

Lemma find_app {A : Type} (f : A -> bool) (l1 l2 : list A) :
  List.find f (l1 ++ l2)
  = match List.find f l1 with
    | Some x => Some x
    | None => List.find f l2
    end.
Proof.
  induction l1 as [|x l1 IH]; cbn; [reflexivity |].
  destruct (f x); [reflexivity | exact IH].
Qed.

Section DefectTypes.

Variable lower : string -> string.
Variable server : list request -> request -> response.

Lemma truthy_Some (s : string) : truthy (Some s) = true <-> s <> "".
Proof.
  cbn. destruct (String.eqb_spec s ""); cbn; split; congruence.
Qed.

Lemma group_locator_find (l : list DefectType) (name : string) :
  group_locator lower l name = option_map locator (List.find (name_matches lower name) l).
Proof.
  unfold group_locator. induction l as [|dt l IH]; cbn; [reflexivity |].
  fold (name_matches lower name dt). destruct (name_matches lower name dt); cbn; [reflexivity |].
  exact IH.
Qed.

(** The request sent, and the case analysis of the outcome, for a non-empty
    name. *)
Lemma get_defect_type_locator_named (name : string) (w : world) :
  name <> "" ->
  let resp := server (trace w) GET_settings in
  let w' := mkWorld (trace w ++ [GET_settings]) (data w) (warnings w) in
  get_defect_type_locator lower server (Some name) w
  = (if ok resp then
       match r_subTypes resp with
       | None => Val "ti001"
       | Some [] => Val "ti001"
       | Some defect_types =>
           match search_groups lower defect_types name GROUPS_TO_SEARCH None with
           | Exc e => Exc e
           | Val dt_locator =>
               if truthy dt_locator then Val (py_str dt_locator)
               else Exc (ReportError_defect_type name)
           end
       end
     else Exc (ReportError_status (status_code resp)), w').
Proof.
  intros Hname. apply truthy_Some in Hname.
  unfold get_defect_type_locator. rewrite Hname. cbn [negb].
  unfold bind, rp_api. cbn zeta.
  destruct (ok (server (trace w) GET_settings)); [|reflexivity].
  destruct (r_subTypes (server (trace w) GET_settings)) as [[|g dts]|]; try reflexivity.
  unfold lift. cbn [py_str].
  destruct (search_groups lower (g :: dts) name GROUPS_TO_SEARCH None) as [loc|e];
    [|reflexivity].
  destruct (truthy loc); reflexivity.
Qed.

(** When the loop ends without a locator, every searched group was present
    and gave none. *)
Lemma search_groups_falsy (defect_types : dict (list DefectType)) (name : string)
    (groups : list string) (init loc : option string) :
  search_groups lower defect_types name groups init = Val loc ->
  truthy loc = false ->
  forall g, In g groups ->
    exists l, dict_get defect_types g = Some l
              /\ truthy (group_locator lower l name) = false.
Proof.
  revert init. induction groups as [|g0 groups IH]; intros init Hs Hloc g Hin; [destruct Hin |].
  cbn [search_groups] in Hs.
  destruct (dict_get defect_types g0) as [l|] eqn:Hget; [|discriminate].
  destruct (truthy (group_locator lower l name)) eqn:Ht.
  - injection Hs as <-. congruence.
  - destruct Hin as [<-|Hin]; [now exists l |].
    eapply IH; eassumption.
Qed.

Lemma search_groups_raises (defect_types : dict (list DefectType)) (name : string)
    (groups : list string) (init : option string) (e : exception) :
  search_groups lower defect_types name groups init = Exc e -> e = KeyError.
Proof.
  revert init. induction groups as [|g groups IH]; intros init; cbn [search_groups].
  - discriminate.
  - destruct (dict_get defect_types g) as [l|]; [|congruence].
    destruct (truthy (group_locator lower l name)); [discriminate | apply IH].
Qed.

(** With every group present and no empty locator, the loop returns the
    locator of the first sub-type that matches, in the order of the
    groups. *)
Lemma search_groups_first_match (defect_types : dict (list DefectType)) (name : string)
    (groups : list string) :
  (forall g, In g groups -> dict_get defect_types g <> None) ->
  (forall g l dt, In g groups -> dict_get defect_types g = Some l -> In dt l ->
                  locator dt <> "") ->
  search_groups lower defect_types name groups None
  = Val (option_map locator
           (List.find (name_matches lower name)
              (List.flat_map (fun g => default [] (dict_get defect_types g)) groups))).
Proof.
  induction groups as [|g groups IH]; intros Hpresent Hloc; [reflexivity |].
  cbn [search_groups List.flat_map].
  destruct (dict_get defect_types g) as [l|] eqn:Hget.
  2:{ exfalso. apply (Hpresent g); [now left | assumption]. }
  change (default [] (Some l)) with l. rewrite group_locator_find.
  rewrite find_app.
  destruct (List.find (name_matches lower name) l) as [dt|] eqn:Hfind; cbn [option_map].
  - apply List.find_some in Hfind as [Hin _].
    assert (Hne : locator dt <> "") by (eapply Hloc; [now left | eassumption | assumption]).
    apply truthy_Some in Hne. rewrite Hne. reflexivity.
  - cbn [truthy]. apply IH.
    + intros g' Hg'. apply Hpresent. now right.
    + intros g' l' dt' Hg'. apply Hloc. now right.
Qed.

End DefectTypes.

Lemma in_spec_candidates (defect_types : dict (list DefectType)) (g : string)
    (l : list DefectType) (dt : DefectType) :
  In g GROUPS_TO_SEARCH -> dict_get defect_types g = Some l -> In dt l ->
  In dt (spec_candidates defect_types).
Proof.
  intros Hg Hget Hin. unfold spec_candidates. apply List.in_flat_map.
  exists g. split; [assumption |]. now rewrite Hget.
Qed.

(** C4 (amended).  An empty or absent name gives "ti001" and no request is
    sent.  A non-empty name sends GET settings; when the answer lists
    sub-types for the five groups, with non-empty locators, the result is the
    locator of the first sub-type, in the fixed order of the groups, whose
    long name equals the name up to case, and the error is raised exactly
    when no sub-type of these groups matches. *)
Theorem C4_defect_type_resolution (lower : string -> string)
    (server : list request -> request -> response) (w : world) (name : string)
    (defect_types : dict (list DefectType)) :
  name <> "" ->
  ok (server (trace w) GET_settings) = true ->
  r_subTypes (server (trace w) GET_settings) = Some defect_types ->
  defect_types <> [] ->
  (forall g, In g GROUPS_TO_SEARCH -> dict_get defect_types g <> None) ->
  (forall dt, In dt (spec_candidates defect_types) -> locator dt <> "") ->
  let out := get_defect_type_locator lower server (Some name) w in
  (forall absent, truthy absent = false ->
     get_defect_type_locator lower server absent w = (Val "ti001", w))
  /\ trace (snd out) = (trace w ++ [GET_settings])%list
  /\ fst out = match List.find (name_matches lower name) (spec_candidates defect_types) with
               | Some dt => Val (locator dt)
               | None => Exc (ReportError_defect_type name)
               end
  /\ (fst out = Exc (ReportError_defect_type name)
      <-> forall dt, In dt (spec_candidates defect_types) ->
                     lower (longName dt) <> lower name).
Proof.
  intros Hname Hok Hsub Hne Hpresent Hloc out.
  assert (Hout : out
                 = (match List.find (name_matches lower name) (spec_candidates defect_types) with
                    | Some dt => Val (locator dt)
                    | None => Exc (ReportError_defect_type name)
                    end,
                    mkWorld (trace w ++ [GET_settings]) (data w) (warnings w))).
  { unfold out. rewrite get_defect_type_locator_named by assumption.
    cbn zeta. rewrite Hok, Hsub.
    destruct defect_types as [|g0 dts]; [contradiction |].
    rewrite search_groups_first_match.
    - fold (spec_candidates (g0 :: dts)).
      destruct (List.find (name_matches lower name) (spec_candidates (g0 :: dts)))
        as [dt|] eqn:Hfind; cbn [option_map]; [|reflexivity].
      apply List.find_some in Hfind as [Hin _].
      apply Hloc, truthy_Some in Hin. now rewrite Hin.
    - assumption.
    - intros g l dt Hg Hget Hin. apply Hloc. eapply in_spec_candidates; eassumption. }
  split; [|rewrite Hout; cbn [fst snd trace]; split; [reflexivity | split; [reflexivity |]]].
  - intros absent Habsent. unfold get_defect_type_locator. now rewrite Habsent.
  - destruct (List.find (name_matches lower name) (spec_candidates defect_types))
      as [dt|] eqn:Hfind.
    + apply List.find_some in Hfind as [Hin Hm]. split; [discriminate |].
      intros Hall. exfalso. apply (Hall dt Hin).
      unfold name_matches in Hm. now apply String.eqb_eq.
    + split; [|reflexivity]. intros _ dt Hin Heq.
      pose proof (List.find_none _ _ Hfind dt Hin) as Hm.
      unfold name_matches in Hm. rewrite Heq, String.eqb_refl in Hm. discriminate.
Qed.

Lemma C4_defect_type_resolution_witness :
  fst (get_defect_type_locator Ex.lower Ex.server (Some "idle") (start Ex.data0))
  = Val "ab_idle".
Proof.
  assert (Hname : "idle" <> "") by discriminate.
  assert (Hne : Ex.subtypes <> []) by discriminate.
  assert (Hpresent : forall g, In g GROUPS_TO_SEARCH -> dict_get Ex.subtypes g <> None).
  { intros g Hg. cbn in Hg.
    repeat (destruct Hg as [<-|Hg]; [discriminate |]). destruct Hg. }
  assert (Hloc : forall dt, In dt (spec_candidates Ex.subtypes) -> locator dt <> "").
  { intros dt Hdt. cbn in Hdt.
    repeat (destruct Hdt as [<-|Hdt]; [discriminate |]). destruct Hdt. }
  exact (proj1 (proj2 (proj2
           (C4_defect_type_resolution Ex.lower Ex.server (start Ex.data0) "idle" Ex.subtypes
              Hname eq_refl eq_refl Hne Hpresent Hloc)))).
Defined.

(** C4 as stated fails: with no name, GET settings is not sent; and with a
    name and settings that list no sub-types, no group contains a match and
    yet no error is raised. *)
Lemma C4_counterexample :
  ~ settings_fetched Ex.lower Ex.server None (start Ex.data0)
  /\ spec_candidates [] = []
  /\ fst (get_defect_type_locator Ex.lower Ex.server_no_subtypes (Some "Idle")
            (start Ex.data0)) = Val "ti001".
Proof.
  split; [|split; reflexivity].
  unfold settings_fetched. cbn. intros [].
Qed.

(** C10 (amended).  For a non-empty name and a successful answer to GET
    settings that has no sub-types, the result is "ti001".  The error for an
    unresolvable name is raised only when sub-types are present and, in every
    searched group, no sub-type matches the name or the first one that
    matches has an empty locator; with non-empty locators, only when no
    sub-type of a searched group matches. *)
Theorem C10_no_subtypes_gives_default (lower : string -> string)
    (server : list request -> request -> response) (w : world) (name : string) :
  name <> "" ->
  ok (server (trace w) GET_settings) = true ->
  let resp := server (trace w) GET_settings in
  let out := get_defect_type_locator lower server (Some name) w in
  (r_subTypes resp = None \/ r_subTypes resp = Some [] -> fst out = Val "ti001")
  /\ (forall n, fst out = Exc (ReportError_defect_type n) ->
        exists defect_types,
          r_subTypes resp = Some defect_types
          /\ defect_types <> []
          /\ forall g, In g GROUPS_TO_SEARCH ->
               exists l, dict_get defect_types g = Some l
                         /\ truthy (group_locator lower l name) = false
                         /\ (forall dt, List.find (name_matches lower name) l = Some dt ->
                               locator dt = "")
                         /\ ((forall dt, In dt l -> locator dt <> "") ->
                             forall dt, In dt l -> lower (longName dt) <> lower name)).
Proof.
  intros Hname Hok resp out. unfold out.
  rewrite get_defect_type_locator_named by assumption.
  cbn zeta. rewrite Hok. fold resp. cbn [fst]. split.
  - intros [-> | ->]; reflexivity.
  - intros n Herr.
    destruct (r_subTypes resp) as [[|g0 dts]|]; try discriminate.
    exists (g0 :: dts). split; [reflexivity |]. split; [discriminate |].
    destruct (search_groups lower (g0 :: dts) name GROUPS_TO_SEARCH None) as [loc|e] eqn:Hs.
    2:{ apply search_groups_raises in Hs. subst e. discriminate. }
    destruct (truthy loc) eqn:Hloc; [discriminate |].
    intros g Hg.
    destruct (search_groups_falsy lower _ _ _ _ _ Hs Hloc g Hg) as [l [Hget Hfalsy]].
    exists l. split; [assumption |]. split; [assumption |].
    rewrite group_locator_find in Hfalsy.
    assert (Hfirst : forall dt, List.find (name_matches lower name) l = Some dt ->
                       locator dt = "").
    { intros dt Hfind. rewrite Hfind in Hfalsy. cbn [option_map] in Hfalsy.
      destruct (String.string_dec (locator dt) "") as [|Hne]; [assumption |].
      apply truthy_Some in Hne. congruence. }
    split; [exact Hfirst |].
    intros Hnonempty dt Hin Heq.
    destruct (List.find (name_matches lower name) l) as [dt'|] eqn:Hfind.
    + pose proof (Hfirst dt' eq_refl) as Hempty.
      apply List.find_some in Hfind as [Hin' _].
      exact (Hnonempty dt' Hin' Hempty).
    + pose proof (List.find_none _ _ Hfind dt Hin) as Hm.
      unfold name_matches in Hm. rewrite Heq, String.eqb_refl in Hm. discriminate.
Qed.

Lemma C10_no_subtypes_gives_default_witness :
  fst (get_defect_type_locator Ex.lower Ex.server_no_subtypes (Some "Idle") (start Ex.data0))
  = Val "ti001".
Proof.
  assert (Hname : "Idle" <> "") by discriminate.
  apply (proj1 (C10_no_subtypes_gives_default Ex.lower Ex.server_no_subtypes
                  (start Ex.data0) "Idle" Hname eq_refl)).
  left. reflexivity.
Defined.

(** C10 as stated fails: the settings list a sub-type of a searched group
    whose long name matches the requested name, its locator is empty, and
    the error for an unresolvable name is raised. *)
Lemma C10_counterexample :
  r_subTypes (Ex.server_empty_locator [] GET_settings) = Some Ex.subtypes_empty_locator
  /\ In (mkDefectType "" "Idle") (spec_candidates Ex.subtypes_empty_locator)
  /\ name_matches Ex.lower "idle" (mkDefectType "" "Idle") = true
  /\ fst (get_defect_type_locator Ex.lower Ex.server_empty_locator (Some "idle")
            (start Ex.data0)) = Exc (ReportError_defect_type "idle").
Proof.
  split; [reflexivity |]. split; [cbn; tauto |]. split; reflexivity.
Qed.

(** ** Executions: what is sent and what is changed *)

Lemma bind_Val {A B : Type} (m : M A) (k : A -> M B) (w w' : world) (b : B) :
  bind m k w = (Val b, w') ->
  exists a w1, m w = (Val a, w1) /\ k a w1 = (Val b, w').
Proof.
  unfold bind. destruct (m w) as [[a|e] w1]; [|discriminate].
  intros H. now exists a, w1.
Qed.

Section Frame.

Variable P : request -> Prop.
Variable Q : ReportReportPortalData -> ReportReportPortalData -> Prop.
Hypothesis Q_refl : forall d, Q d d.
Hypothesis Q_trans : forall a b c, Q a b -> Q b c -> Q a c.

Lemma steps_refl (w : world) : steps P Q w w.
Proof.
  split; [|apply Q_refl]. exists []. split; [now rewrite List.app_nil_r | constructor].
Qed.

Lemma steps_trans (a b c : world) : steps P Q a b -> steps P Q b c -> steps P Q a c.
Proof.
  intros [[l1 [H1 F1]] Q1] [[l2 [H2 F2]] Q2]. split; [|eapply Q_trans; eassumption].
  exists (l1 ++ l2)%list. split.
  - now rewrite H2, H1, List.app_assoc.
  - apply List.Forall_app. now split.
Qed.

Lemma respects_ret {A : Type} (a : A) : respects P Q (ret a).
Proof. intros w. apply steps_refl. Qed.

Lemma respects_raise {A : Type} (e : exception) : respects P Q (@raise A e).
Proof. intros w. apply steps_refl. Qed.

Lemma respects_lift {A : Type} (r : res A) : respects P Q (lift r).
Proof. intros w. apply steps_refl. Qed.

Lemma respects_get_data : respects P Q get_data.
Proof. intros w. apply steps_refl. Qed.

Lemma respects_assert_some {A : Type} (o : option A) : respects P Q (assert_some o).
Proof. destruct o; [apply respects_ret | apply respects_raise]. Qed.

Lemma respects_unbound {A : Type} (o : option A) : respects P Q (unbound o).
Proof. destruct o; [apply respects_ret | apply respects_raise]. Qed.

Lemma respects_warn (msg : string) : respects P Q (warn msg).
Proof.
  intros w. split; [|apply Q_refl]. exists []. cbn.
  split; [now rewrite List.app_nil_r | constructor].
Qed.

Lemma respects_modify_data (f : ReportReportPortalData -> ReportReportPortalData) :
  (forall d, Q d (f d)) -> respects P Q (modify_data f).
Proof.
  intros Hf w. split; [|apply Hf]. exists []. cbn.
  split; [now rewrite List.app_nil_r | constructor].
Qed.

Lemma respects_rp_api (server : list request -> request -> response) (r : request) :
  P r -> respects P Q (rp_api server r).
Proof.
  intros Hr w. unfold rp_api.
  destruct (ok (server (trace w) r)); cbn; (split; [|apply Q_refl]);
    exists [r]; (split; [reflexivity | now repeat constructor]).
Qed.

Lemma respects_bind {A B : Type} (m : M A) (k : A -> M B) :
  respects P Q m -> (forall a, respects P Q (k a)) -> respects P Q (bind m k).
Proof.
  intros Hm Hk w. unfold bind. specialize (Hm w).
  destruct (m w) as [[a|e] w1]; cbn in *; [|assumption].
  eapply steps_trans; [exact Hm | apply Hk].
Qed.

Lemma respects_when (b : bool) (m : M unit) :
  respects P Q m -> respects P Q (when b m).
Proof. intros Hm. destruct b; [assumption | apply respects_ret]. Qed.

Lemma respects_for_each {A S : Type} (body : S -> A -> M S) (l : list A) (s : S) :
  (forall s x, respects P Q (body s x)) -> respects P Q (for_each body l s).
Proof.
  intros Hbody. revert s. induction l as [|x l IH]; intros s; cbn [for_each].
  - apply respects_ret.
  - apply respects_bind; [apply Hbody | intros s'; apply IH].
Qed.

End Frame.

(** One step of the analysis of a program of the monad; [r] and [t] are the
    proofs that the relation on the data is a preorder. *)
Ltac frame_step r t :=
  first
    [ apply (respects_ret _ _ r) | apply (respects_raise _ _ r) | apply (respects_lift _ _ r)
    | apply (respects_get_data _ _ r) | apply (respects_assert_some _ _ r)
    | apply (respects_unbound _ _ r) | apply (respects_warn _ _ r)
    | apply (respects_when _ _ r)
    | apply (respects_for_each _ _ r t); intros ? ?
    | apply (respects_bind _ _ t); [ | intros ?]
    | apply (respects_rp_api _ _ r)
    | apply (respects_modify_data _ _ r); intros ?
    | progress cbv beta iota zeta
    | match goal with
      | |- respects _ _ (if ?b then _ else _) => destruct b eqn:?
      | |- respects _ _ (match ?x with _ => _ end) => destruct x eqn:?
      end ].

Ltac frame r t :=
  repeat (frame_step r t
          || unfold process_test, test_item, upload_logs, upload_log,
               get_defect_type_locator, open_launch, open_suite, close_plan).

(** ** Finishing the launch *)

Lemma any_data_refl (d : ReportReportPortalData) : any_data d d.
Proof. exact I. Qed.

Lemma any_data_trans (a b c : ReportReportPortalData) :
  any_data a b -> any_data b c -> any_data a c.
Proof. intros _ _. exact I. Qed.


Section LaunchFinish.

Variable bytes_repr : Z -> string.
Variable lower : string -> string.
Variable re_search : string -> string -> bool.
Variable datetime : string.
Variable server : list request -> request -> response.
Variable step : Step.



End LaunchFinish.





(** ** Log entries and the status of a test *)

Lemma flat_map_pointwise {A B : Type} (f g : A -> list B) (l : list A) :
  (forall x, In x l -> f x = g x) -> List.flat_map f l = List.flat_map g l.
Proof.
  induction l as [|x l IH]; intros H; cbn; [reflexivity |].
  rewrite H by now left. f_equal. apply IH. intros y Hy. apply H. now right.
Qed.

Lemma in_enumerate_from {A : Type} (l : list A) (k i : nat) (x : A) :
  In (i, x) (enumerate_from k l) -> (k <= i)%nat /\ List.nth_error l (i - k) = Some x.
Proof.
  revert k. induction l as [|y l IH]; intros k; cbn; [intros [] |].
  intros [Heq|Hin].
  - injection Heq as <- <-. split; [lia |]. now rewrite Nat.sub_diag.
  - apply IH in Hin as [Hle Hnth]. split; [lia |].
    replace (i - k)%nat with (S (i - S k)) by lia. exact Hnth.
Qed.

Section Logs.

Variable bytes_repr : Z -> string.
Variable server : list request -> request -> response.
Variable step : Step.

(** The loop over the logs, when ReportPortal accepts the log entries. *)
Lemma upload_log_loop (r : Result) (item_uuid launch_v time : string) :
  (forall h m lvl, ok (server h (POST_log_entry m item_uuid launch_v lvl time)) = true) ->
  forall (l : list string) (k : nat) (status : string) (w : world),
    for_each (upload_log bytes_repr server step r item_uuid launch_v time)
      (enumerate_from k l) status w
    = (Val (if List.existsb
                 (fun p => match execute_read step p with Some _ => true | None => false end) l
            then TMT_TO_RP_RESULT_STATUS (result r) else status),
       mkWorld
         (trace w
          ++ List.flat_map
               (spec_entries_of_log bytes_repr (execute_read step) (level_by_path r)
                  (data w) r item_uuid launch_v time)
               (enumerate_from k l))
         (data w) (warnings w)).
Proof.
  intros Hok. induction l as [|p l IH]; intros k status w; cbn [enumerate_from for_each].
  - cbn. rewrite List.app_nil_r. now destruct w.
  - cbn [List.flat_map List.existsb]. unfold bind at 1.
    unfold upload_log at 1, spec_entries_of_log at 1. cbn [fst snd].
    destruct (execute_read step p) as [log_text|] eqn:Hread.
    + unfold bind at 1, get_data at 1. unfold bind at 1, rp_api at 1.
      rewrite Hok. cbn [orb].
      destruct (Nat.eqb k 0 && String.eqb (TMT_TO_RP_RESULT_STATUS (result r)) "FAILED").
      * unfold bind at 1. unfold bind at 1, get_data at 1. unfold bind at 1, rp_api at 1.
        rewrite Hok. cbn [ret data trace warnings]. rewrite IH.
        cbn [data trace warnings]. unfold level_by_path at 2.
        rewrite <- !List.app_assoc. cbn [app].
        now destruct (List.existsb _ l).
      * unfold bind at 1. cbn [ret data trace warnings]. rewrite IH.
        cbn [data trace warnings]. unfold level_by_path at 2.
        rewrite <- !List.app_assoc. cbn [app].
        now destruct (List.existsb _ l).
    + cbn [ret orb app]. apply IH.
Qed.

Lemma level_by_path_position (r : Result) (i : nat) (p : string) :
  List.NoDup (log r) -> In (i, p) (enumerate (log r)) ->
  level_by_path r i p = level_by_position i p.
Proof.
  intros Hnd Hin. apply in_enumerate_from in Hin as [_ Hnth].
  rewrite Nat.sub_0_r in Hnth. unfold level_by_path, level_by_position.
  destruct (log r) as [|first rest] eqn:Hlog; [now destruct i |].
  cbn [List.hd_error]. destruct i as [|i]; cbn in Hnth.
  - injection Hnth as ->. now rewrite String.eqb_refl.
  - cbn [Nat.eqb]. destruct (String.eqb_spec p first) as [->|Hne]; [|reflexivity].
    apply List.NoDup_cons_iff in Hnd as [Hfresh _].
    exfalso. apply Hfresh. eapply List.nth_error_In. eassumption.
Qed.

End Logs.

(** C8 (amended).  When ReportPortal accepts the log entries, the loop over
    the logs of a result uploads, for each log that can be read and in
    order, one entry with the log sanitised under the general limit, at
    level INFO when its path is the first path of the sequence and TRACE
    otherwise, and, after the entry of the log at position 0 of a result
    whose outcome maps to FAILED, one ERROR entry with the failure text
    sanitised under the traceback limit.  When no path occurs twice, the
    first log is the only one at level INFO. *)
Theorem C8_log_entries (bytes_repr : Z -> string)
    (server : list request -> request -> response) (step : Step) (r : Result)
    (item_uuid launch_v time status : string) (w : world) :
  (forall h m lvl, ok (server h (POST_log_entry m item_uuid launch_v lvl time)) = true) ->
  let out := upload_logs bytes_repr server step r item_uuid launch_v time status w in
  fst out = Val (status_after_logs (execute_read step) r status)
  /\ trace (snd out)
     = (trace w
        ++ spec_log_entries bytes_repr (execute_read step) (level_by_path r) (data w) r
             item_uuid launch_v time)%list
  /\ data (snd out) = data w
  /\ (List.NoDup (log r) ->
      spec_log_entries bytes_repr (execute_read step) (level_by_path r) (data w) r
        item_uuid launch_v time
      = spec_log_entries bytes_repr (execute_read step) level_by_position (data w) r
          item_uuid launch_v time).
Proof.
  intros Hok out. unfold out, upload_logs, enumerate.
  rewrite upload_log_loop by assumption. cbn [fst snd trace data].
  repeat split.
  intros Hnd. unfold spec_log_entries. apply flat_map_pointwise.
  intros [i p] Hin. unfold spec_entries_of_log. cbn [fst snd].
  now rewrite level_by_path_position.
Qed.

Lemma C8_log_entries_witness :
  trace (snd (upload_logs Ex.bytes_repr Ex.server Ex.step_single Ex.result_fail
                "item-1" "launch-uuid" "2024-05-01T10:00:09" "SKIPPED" (start Ex.data0)))
  = [POST_log_entry Ex.hello "item-1" "launch-uuid" "INFO" "2024-05-01T10:00:09";
     POST_log_entry (text_of_string "hell") "item-1" "launch-uuid" "ERROR"
       "2024-05-01T10:00:09";
     POST_log_entry (text_of_string "kernel: ok") "item-1" "launch-uuid" "TRACE"
       "2024-05-01T10:00:09"].
Proof.
  assert (Hok : forall h m lvl,
             ok (Ex.server h (POST_log_entry m "item-1" "launch-uuid" lvl
                                "2024-05-01T10:00:09")) = true) by reflexivity.
  rewrite (proj1 (proj2 (C8_log_entries Ex.bytes_repr Ex.server Ex.step_single Ex.result_fail
                           "item-1" "launch-uuid" "2024-05-01T10:00:09" "SKIPPED"
                           (start Ex.data0) Hok))).
  reflexivity.
Defined.

(** C8 as stated fails: for a result that lists the same readable log twice,
    the second entry is uploaded at level INFO, where the claim has TRACE for
    every log after the first. *)
Lemma C8_counterexample :
  trace (snd (upload_logs Ex.bytes_repr Ex.server Ex.step_twice Ex.result_twice
                "item-1" "launch-uuid" "2024-05-01T10:00:12" "SKIPPED" (start Ex.data0)))
  = [POST_log_entry Ex.hello "item-1" "launch-uuid" "INFO" "2024-05-01T10:00:12";
     POST_log_entry Ex.hello "item-1" "launch-uuid" "INFO" "2024-05-01T10:00:12"]
  /\ spec_log_entries Ex.bytes_repr Ex.read level_by_position Ex.data0 Ex.result_twice
       "item-1" "launch-uuid" "2024-05-01T10:00:12"
     = [POST_log_entry Ex.hello "item-1" "launch-uuid" "INFO" "2024-05-01T10:00:12";
        POST_log_entry Ex.hello "item-1" "launch-uuid" "TRACE" "2024-05-01T10:00:12"]
  /\ trace (snd (upload_logs Ex.bytes_repr Ex.server Ex.step_twice Ex.result_twice
                   "item-1" "launch-uuid" "2024-05-01T10:00:12" "SKIPPED" (start Ex.data0)))
     <> spec_log_entries Ex.bytes_repr Ex.read level_by_position Ex.data0 Ex.result_twice
          "item-1" "launch-uuid" "2024-05-01T10:00:12".
Proof.
  split; [reflexivity |]. split; [reflexivity |].
  vm_compute. discriminate.
Qed.

Section TestStatus.

Variable bytes_repr : Z -> string.
Variable lower : string -> string.
Variable re_search : string -> string -> bool.
Variable server : list request -> request -> response.
Variable step : Step.

(** The finish call of a test is the last request of its iteration, and the
    status it carries is the mapped outcome only if a log of the result was
    read. *)
Lemma process_test_finish_status (ct lpp : bool) (attributes : list attribute)
    (envar_pattern defect : string) (su : option string) (lu : string)
    (vars vars' : loop_vars) (rt : option Result * option Test) (w w' : world) :
  (forall h m i l lvl t, ok (server h (POST_log_entry m i l lvl t)) = true) ->
  process_test bytes_repr lower re_search server step ct lpp attributes envar_pattern
    defect su lu vars rt w = (Val vars', w') ->
  exists before item_uuid time issue,
    trace w'
    = (before ++ [PUT_item item_uuid lu time (sent_status (execute_read step) (fst rt))
                    issue])%list.
Proof.
  intros Hok H. destruct rt as [[r|] [t|]]; unfold process_test in H; cbv zeta in H;
    cbn [fst sent_status];
    apply bind_Val in H as (item_uuid & w1 & _ & H);
    apply bind_Val in H as ([time status] & w2 & Hlogs & H);
    apply bind_Val in H as (issue & w3 & _ & H);
    apply bind_Val in H as (resp & w4 & Hput & H);
    injection H as _ <-;
    unfold rp_api in Hput;
    match type of Hput with
    | (if ?b then _ else _) = _ => destruct b; [|discriminate]
    end;
    injection Hput as _ <-; cbn [trace];
    exists (trace w3), item_uuid, time, issue.
  1,2: apply bind_Val in Hlogs as (status' & w5 & Hup & Hret);
       injection Hret as <- <- <-;
       unfold upload_logs, enumerate in Hup;
       rewrite upload_log_loop in Hup by (intros; apply Hok);
       injection Hup as <- _; reflexivity.
  1,2: injection Hlogs as <- <- <-; reflexivity.
Qed.

(** An idle test uploads no log entry. *)
Lemma process_test_idle_no_logs (ct lpp : bool) (attributes : list attribute)
    (envar_pattern defect : string) (su : option string) (lu : string)
    (vars : loop_vars) (t : option Test) :
  respects not_log_entry any_data
    (process_test bytes_repr lower re_search server step ct lpp attributes envar_pattern
       defect su lu vars (None, t)).
Proof.
  frame any_data_refl any_data_trans; exact I.
Qed.

End TestStatus.

(** C2 (the code departs from the claim).  A passed result without logs and
    a failed result whose only log cannot be read: the outcome table gives
    PASSED and FAILED, the finish calls carry SKIPPED, because [status] is
    assigned from the table only inside the loop over the logs, after a log
    has been read. *)
Theorem C2_result_without_readable_log_is_skipped :
  spec_status (Some Ex.result_nolog) = "PASSED"
  /\ spec_status (Some Ex.result_unreadable) = "FAILED"
  /\ sent_status Ex.read (Some Ex.result_nolog) = "SKIPPED"
  /\ sent_status Ex.read (Some Ex.result_unreadable) = "SKIPPED"
  /\ fst (Ex.run Ex.server Ex.step_nolog Ex.data0) = Val tt
  /\ trace (snd (Ex.run Ex.server Ex.step_nolog Ex.data0))
     = [POST_launch "/plans/one" "" [("a", "1"); ("b", "2")] "2024-05-01T10:00:20" false;
        GET_launch_uuid "launch-uuid";
        POST_step None (Some "/tests/nolog") "" [("a", "1"); ("b", "2")] (Some []) None
          "launch-uuid" None "2024-05-01T10:00:20";
        PUT_item "item-2" "launch-uuid" "2024-05-01T10:00:21" "SKIPPED" "ti001";
        POST_step None (Some "/tests/unreadable") "" [("a", "1"); ("b", "2")] (Some []) None
          "launch-uuid" None "2024-05-01T10:00:22";
        PUT_item "item-4" "launch-uuid" "2024-05-01T10:00:23" "SKIPPED" "ti001";
        PUT_launch_finish "launch-uuid" "2024-05-01T10:00:23"].
Proof.
  repeat (split; [reflexivity |]).
  split; vm_compute; reflexivity.
Qed.

(** ** The persisted test identifiers *)

Lemma same_uuids_refl (d : ReportReportPortalData) : same_uuids d d.
Proof. reflexivity. Qed.

Lemma same_uuids_trans (a b c : ReportReportPortalData) :
  same_uuids a b -> same_uuids b c -> same_uuids a c.
Proof. unfold same_uuids. congruence. Qed.

(** Closes what the analysis of a program leaves: a request of an allowed
    kind, or a change of the data that leaves the test identifiers alone. *)
Ltac frame_leaf :=
  first [ exact I | reflexivity | (unfold not_step, is_step; tauto) ].

Section TestUuids.

Variable bytes_repr : Z -> string.
Variable lower : string -> string.
Variable re_search : string -> string -> bool.
Variable datetime : string.
Variable server : list request -> request -> response.
Variable step : Step.

(** With a map that is not empty at the start, the import creates no test
    item and leaves the map as it is. *)
Lemma execute_rp_import_keeps_uuids (d : ReportReportPortalData) :
  test_uuids d <> ∅ ->
  steps not_step same_uuids (start d)
    (snd (execute_rp_import bytes_repr lower re_search datetime server step (start d))).
Proof.
  intros Hne.
  assert (Hct : create_test d = false).
  { unfold create_test. now apply bool_decide_eq_false. }
  unfold execute_rp_import.
  destruct (my_run_plans step) as [plans|] eqn:Hrun; cbn [assert_some].
  2:{ apply (steps_refl _ _ same_uuids_refl). }
  unfold bind at 1. cbn [ret]. unfold bind at 1, get_data at 1. cbn [data start].
  rewrite Hct.
  match goal with
  | |- steps ?P ?Q ?w (snd (?m ?w)) => cut (respects P Q m); [intros Hr; exact (Hr w) |]
  end.
  frame same_uuids_refl same_uuids_trans; frame_leaf.
Qed.

(** Reuse: with creation disabled the stored identifier is returned, nothing
    is sent or changed, and a missing entry is a [KeyError]. *)
Lemma test_item_reuse (lpp : bool) (su : option string) (lu : string) (sn : Z)
    (name : option string) (description : string) (attrs : list attribute)
    (env_vars : option (list attribute)) (link id : option string) (time : string)
    (w : world) :
  test_item server false lpp su lu (Some sn) name description attrs env_vars link id time w
  = (match test_uuids (data w) !! sn with
     | Some item_uuid => Val item_uuid
     | None => Exc KeyError
     end, w).
Proof.
  unfold test_item, bind, unbound, ret, get_data.
  now destruct (test_uuids (data w) !! sn).
Qed.

(** Creation: one POST of a step item, whose identifier is stored under the
    serial number of the test. *)
Lemma test_item_create (lpp : bool) (su : option string) (lu : string) (sn : Z)
    (name : option string) (description : string) (attrs : list attribute)
    (env_vars : option (list attribute)) (link id : option string) (time : string)
    (w w' : world) (item_uuid : string) :
  test_item server true lpp su lu (Some sn) name description attrs env_vars link id time w
  = (Val item_uuid, w') ->
  exists r,
    is_step r
    /\ r_id (server (trace w) r) = Some item_uuid
    /\ trace w' = (trace w ++ [r])%list
    /\ test_uuids (data w') = <[sn := item_uuid]> (test_uuids (data w)).
Proof.
  unfold test_item. intros H.
  apply bind_Val in H as (d & w0 & Hd & H). injection Hd as <- <-.
  apply bind_Val in H as (resp & w1 & Hapi & H).
  apply bind_Val in H as (u & w2 & Hid & H).
  apply bind_Val in H as (n & w3 & Hsn & H).
  apply bind_Val in H as (? & w4 & Hmod & H).
  injection H as <- <-. injection Hsn as <- <-.
  unfold rp_api in Hapi.
  match type of Hapi with
  | (if ok (server _ ?r) then _ else _) = _ =>
      destruct (ok (server (trace w) r)) eqn:Hok; [|discriminate]; exists r
  end.
  injection Hapi as <- <-.
  destruct (r_id (server (trace w) _)) as [u'|] eqn:Hrid; [|discriminate].
  injection Hid as <- <-. injection Hmod as Hw4. subst.
  cbn. repeat split; try assumption; try reflexivity.
Qed.

Hypothesis server_fresh : fresh_ids server.

Lemma steps_uuids_inv (w w' : world) :
  steps any_request same_uuids w w' -> uuids_inv server w -> uuids_inv server w'.
Proof.
  intros [[l [Htr _]] Hsame] [Hinj Hissued]. unfold same_uuids in Hsame.
  split; rewrite Hsame; [assumption |].
  intros s u Hs. destruct (Hissued s u Hs) as (h & r & Hr & Hid & Hlen).
  exists h, r. repeat split; try assumption.
  rewrite Htr, List.length_app. lia.
Qed.

Lemma respects_preserves {A : Type} (m : M A) :
  respects any_request same_uuids m -> preserves (uuids_inv server) m.
Proof. intros Hm w Hw. eapply steps_uuids_inv; [apply Hm | assumption]. Qed.

Lemma preserves_bind {A B : Type} (I : world -> Prop) (m : M A) (k : A -> M B) :
  preserves I m -> (forall a, preserves I (k a)) -> preserves I (bind m k).
Proof.
  intros Hm Hk w Hw. unfold bind. specialize (Hm w Hw).
  destruct (m w) as [[a|e] w1]; cbn in *; [now apply Hk | assumption].
Qed.

Lemma preserves_for_each {A S : Type} (I : world -> Prop) (body : S -> A -> M S)
    (l : list A) (s : S) :
  (forall s x, preserves I (body s x)) -> preserves I (for_each body l s).
Proof.
  intros Hbody. revert s. induction l as [|x l IH]; intros s; cbn [for_each].
  - intros w Hw. exact Hw.
  - apply preserves_bind; [apply Hbody | intros s'; apply IH].
Qed.

(** Storing a fresh identifier keeps the map injective. *)
Lemma insert_fresh_inv (w : world) (r : request) (sn : Z) (u : string) :
  is_step r -> r_id (server (trace w) r) = Some u ->
  uuids_inv server w ->
  uuids_inv server
    (mkWorld (trace w ++ [r]) (set_test_uuids (<[sn := u]> (test_uuids (data w))) (data w))
       (warnings w)).
Proof.
  intros Hr Hid [Hinj Hissued].
  assert (Hnew : forall s, test_uuids (data w) !! s = Some u -> False).
  { intros s Hs. destruct (Hissued s u Hs) as (h' & r' & Hr' & Hid' & Hlen).
    pose proof (server_fresh h' (trace w) r' r u Hr' Hr Hid' Hid). lia. }
  split; cbn [data trace test_uuids set_test_uuids].
  - intros s1 s2 v H1 H2.
    destruct (decide (sn = s1)) as [<-|Hne1], (decide (sn = s2)) as [<-|Hne2];
      [reflexivity | | |].
    + rewrite lookup_insert_eq in H1. injection H1 as <-.
      rewrite lookup_insert_ne in H2 by assumption. exfalso. eauto.
    + rewrite lookup_insert_eq in H2. injection H2 as <-.
      rewrite lookup_insert_ne in H1 by assumption. exfalso. eauto.
    + rewrite lookup_insert_ne in H1, H2 by assumption. eauto.
  - intros s v Hs. destruct (decide (sn = s)) as [<-|Hne].
    + rewrite lookup_insert_eq in Hs. injection Hs as <-.
      exists (trace w), r. cbn [trace]. repeat split; try assumption.
      rewrite List.length_app. cbn. lia.
    + rewrite lookup_insert_ne in Hs by assumption.
      destruct (Hissued s v Hs) as (h' & r' & Hr' & Hid' & Hlen).
      exists h', r'. cbn [trace]. repeat split; try assumption.
      rewrite List.length_app. lia.
Qed.

Lemma test_item_preserves (ct lpp : bool) (su : option string) (lu : string)
    (sn : option Z) (name : option string) (description : string) (attrs : list attribute)
    (env_vars : option (list attribute)) (link id : option string) (time : string) :
  preserves (uuids_inv server)
    (test_item server ct lpp su lu sn name description attrs env_vars link id time).
Proof.
  destruct ct.
  2:{ apply respects_preserves. frame same_uuids_refl same_uuids_trans; frame_leaf. }
  intros w Hw. unfold test_item.
  unfold bind at 1, get_data at 1. unfold bind at 1, rp_api at 1.
  assert (Hext : forall r, uuids_inv server (mkWorld (trace w ++ [r]) (data w) (warnings w))).
  { intros r. eapply steps_uuids_inv; [|exact Hw].
    split; [|reflexivity]. exists [r]. split; [reflexivity | repeat constructor]. }
  match goal with
  | |- context [ok (server (trace w) ?r)] =>
      destruct (ok (server (trace w) r)) eqn:Hok; [|apply Hext];
      destruct (r_id (server (trace w) r)) as [u|] eqn:Hid
  end.
  - unfold bind at 1. cbn [assert_some ret].
    destruct sn as [n|]; unfold bind at 1; cbn [unbound ret raise snd]; [|apply Hext].
    cbn. apply insert_fresh_inv; [exact I | assumption | assumption].
  - unfold bind at 1. cbn [assert_some raise snd]. apply Hext.
Qed.

Lemma process_test_preserves (ct lpp : bool) (attributes : list attribute)
    (envar_pattern defect : string) (su : option string) (lu : string)
    (vars : loop_vars) (rt : option Result * option Test) :
  preserves (uuids_inv server)
    (process_test bytes_repr lower re_search server step ct lpp attributes envar_pattern
       defect su lu vars rt).
Proof.
  destruct rt as [[r|] [t|]]; unfold process_test; cbv zeta;
    (apply preserves_bind; [apply test_item_preserves | intros item_uuid]);
    apply respects_preserves;
    frame same_uuids_refl same_uuids_trans; frame_leaf.
Qed.

(** With an empty map at the start, the map the import leaves is injective. *)
Lemma execute_rp_import_injective (d : ReportReportPortalData) :
  test_uuids d = ∅ ->
  injective_uuids
    (test_uuids (data (snd (execute_rp_import bytes_repr lower re_search datetime server
                              step (start d))))).
Proof.
  intros Hempty.
  assert (Hstart : uuids_inv server (start d)).
  { split; cbn [start data]; rewrite Hempty; intros ? ; intros;
      match goal with H : ∅ !! _ = Some _ |- _ => rewrite lookup_empty in H; discriminate end. }
  cut (uuids_inv server
         (snd (execute_rp_import bytes_repr lower re_search datetime server step (start d)))).
  { now intros [Hinj _]. }
  revert Hstart. generalize (start d).
  change (preserves (uuids_inv server)
            (execute_rp_import bytes_repr lower re_search datetime server step)).
  unfold execute_rp_import.
  apply preserves_bind;
    [apply respects_preserves; frame same_uuids_refl same_uuids_trans; frame_leaf |].
  intros plans.
  apply preserves_bind;
    [apply respects_preserves; frame same_uuids_refl same_uuids_trans; frame_leaf |].
  intros d0. cbv zeta.
  repeat (apply preserves_bind;
          [apply respects_preserves; frame same_uuids_refl same_uuids_trans; frame_leaf |];
          intros ?).
  repeat match goal with
         | |- preserves _ (let (_, _) := ?x in _) => destruct x
         end.
  repeat (apply preserves_bind;
          [apply respects_preserves; frame same_uuids_refl same_uuids_trans; frame_leaf |];
          intros ?).
  apply preserves_bind.
  - apply preserves_for_each. intros ? ?. apply process_test_preserves.
  - intros vars. apply respects_preserves.
    frame same_uuids_refl same_uuids_trans; frame_leaf.
Qed.

End TestUuids.

Lemma tally_inj (n m : nat) : Ex.tally n = Ex.tally m -> n = m.
Proof.
  revert m. induction n as [|n IH]; intros [|m]; cbn; try discriminate; [reflexivity |].
  intros [= H]. f_equal. now apply IH.
Qed.

Lemma server_tally_fresh : fresh_ids Ex.server_tally.
Proof.
  intros h1 h2 r1 r2 u H1 H2.
  destruct r1; try contradiction. destruct r2; try contradiction.
  cbn. intros [= <-] [= Heq]. symmetry. now apply tally_inj.
Qed.

(** C7 (amended).  Test items are created only by an import that finds the
    map empty: an import that finds it non-empty sends no item creation and
    leaves the map unchanged; with creation disabled the stored identifier
    is returned and a missing entry is an error; a creation stores the
    identifier it receives under the serial number of the test.  When
    ReportPortal gives different identifiers to the items it creates, the
    map an import builds has no two serial numbers with the same
    identifier. *)
Theorem C7_test_uuids (bytes_repr : Z -> string) (lower : string -> string)
    (re_search : string -> string -> bool) (datetime : string)
    (server : list request -> request -> response) (step : Step)
    (d : ReportReportPortalData) :
  fresh_ids server ->
  let out := execute_rp_import bytes_repr lower re_search datetime server step (start d) in
  (test_uuids d <> ∅ ->
   test_uuids (data (snd out)) = test_uuids d /\ Forall not_step (trace (snd out)))
  /\ (test_uuids d = ∅ -> injective_uuids (test_uuids (data (snd out))))
  /\ (forall lpp su lu sn name description attrs env_vars link id time w,
        test_item server false lpp su lu (Some sn) name description attrs env_vars link id
          time w
        = (match test_uuids (data w) !! sn with
           | Some item_uuid => Val item_uuid
           | None => Exc KeyError
           end, w))
  /\ (forall lpp su lu sn name description attrs env_vars link id time w w' item_uuid,
        test_item server true lpp su lu (Some sn) name description attrs env_vars link id
          time w = (Val item_uuid, w') ->
        exists r,
          is_step r
          /\ r_id (server (trace w) r) = Some item_uuid
          /\ trace w' = (trace w ++ [r])%list
          /\ test_uuids (data w') = <[sn := item_uuid]> (test_uuids (data w))).
Proof.
  intros Hfresh out. split; [|split; [|split]].
  - intros Hne.
    destruct (execute_rp_import_keeps_uuids bytes_repr lower re_search datetime server step
                d Hne) as [[l [Htr Hall]] Hsame].
    fold out in Htr, Hsame. split; [exact Hsame |].
    cbn [start trace app] in Htr. now rewrite Htr.
  - intros Hempty. now apply execute_rp_import_injective.
  - intros. apply test_item_reuse.
  - intros lpp su lu sn name description attrs env_vars link id time w w' item_uuid H.
    eapply test_item_create. exact H.
Qed.

Lemma C7_test_uuids_witness :
  injective_uuids
    (test_uuids (data (snd (Ex.run Ex.server_tally Ex.step_single Ex.data0)))).
Proof.
  exact (proj1 (proj2 (C7_test_uuids Ex.bytes_repr Ex.lower Ex.re_search
                         "2024-05-01T12:00:00" Ex.server_tally Ex.step_single Ex.data0
                         server_tally_fresh))
           eq_refl).
Defined.

(** C7 as stated fails.  When ReportPortal answers two creations with the
    same identifier, two serial numbers have that identifier in the map.
    And when two results have the same serial number (one test run on two
    guests), the entry stored for the first is replaced by the identifier of
    the item created for the second. *)
Lemma C7_counterexample :
  ~ injective_uuids
      (test_uuids (data (snd (Ex.run Ex.server_same_id Ex.step_single Ex.data0))))
  /\ test_uuids (data (snd (Ex.run Ex.server Ex.step_only_first Ex.data0))) !! 1
     = Some "item-2"
  /\ test_uuids (data (snd (Ex.run Ex.server Ex.step_two_guests Ex.data0))) !! 1
     = Some "item-5".
Proof.
  split; [|split; vm_compute; reflexivity].
  intros Hinj.
  assert (H : (1 : Z) = 2); [|discriminate].
  apply (Hinj 1 2 "item"); vm_compute; reflexivity.
Qed.

(** ** Rejected requests *)

Lemma app_snoc_split {A : Type} (tr before after : list A) (r x : A) :
  (tr ++ [r] = before ++ x :: after)%list ->
  (after = [] /\ before = tr /\ x = r)
  \/ exists after', after = (after' ++ [r])%list /\ tr = (before ++ x :: after')%list.
Proof.
  destruct (List.exists_last (l := x :: after)) as [init [y Hlast]]; [discriminate |].
  intros H. destruct after as [|z after].
  - left. change (before ++ [x])%list with (before ++ [x])%list in H.
    apply List.app_inj_tail in H as [-> ->]. repeat split.
  - right. destruct init as [|x' init]; [destruct after; discriminate |].
    injection Hlast as <- Hafter. rewrite Hafter in H.
    change (before ++ x :: init ++ [y])%list with (before ++ (x :: init) ++ [y])%list in H.
    rewrite List.app_assoc in H. apply List.app_inj_tail in H as [-> ->].
    now exists init.
Qed.

Section FailFast.

Variable server : list request -> request -> response.

Lemma all_accepted_nil : all_accepted server [].
Proof. intros before r after H. destruct before; discriminate. Qed.

Lemma all_accepted_snoc (tr : list request) (r : request) :
  all_accepted server tr -> ok (server tr r) = true -> all_accepted server (tr ++ [r]).
Proof.
  intros Htr Hok before x after H.
  apply app_snoc_split in H as [(-> & -> & ->) | (after' & -> & ->)]; [assumption |].
  eapply Htr. reflexivity.
Qed.

Lemma fails_fast_ret {A : Type} (a : A) : fails_fast server (ret a).
Proof. intros w Hw. now left. Qed.

Lemma fails_fast_raise {A : Type} (e : exception) : fails_fast server (@raise A e).
Proof. intros w Hw. now left. Qed.

Lemma fails_fast_lift {A : Type} (r : res A) : fails_fast server (lift r).
Proof. intros w Hw. now left. Qed.

Lemma fails_fast_get_data : fails_fast server get_data.
Proof. intros w Hw. now left. Qed.

Lemma fails_fast_modify_data (f : ReportReportPortalData -> ReportReportPortalData) :
  fails_fast server (modify_data f).
Proof. intros w Hw. now left. Qed.

Lemma fails_fast_warn (msg : string) : fails_fast server (warn msg).
Proof. intros w Hw. now left. Qed.

Lemma fails_fast_assert_some {A : Type} (o : option A) : fails_fast server (assert_some o).
Proof. destruct o; [apply fails_fast_ret | apply fails_fast_raise]. Qed.

Lemma fails_fast_unbound {A : Type} (o : option A) : fails_fast server (unbound o).
Proof. destruct o; [apply fails_fast_ret | apply fails_fast_raise]. Qed.

Lemma fails_fast_rp_api (r : request) : fails_fast server (rp_api server r).
Proof.
  intros w Hw. unfold rp_api, accepted_or_stopped.
  destruct (ok (server (trace w) r)) eqn:Hok; cbn [fst snd trace].
  - left. now apply all_accepted_snoc.
  - right. eexists. split; [reflexivity |]. now exists (trace w), r.
Qed.

Lemma fails_fast_bind {A B : Type} (m : M A) (k : A -> M B) :
  fails_fast server m -> (forall a, fails_fast server (k a)) ->
  fails_fast server (bind m k).
Proof.
  intros Hm Hk w Hw. specialize (Hm w Hw). unfold bind.
  destruct (m w) as [[a|e] w1]; unfold accepted_or_stopped in *; cbn [fst snd] in *.
  - destruct Hm as [Hacc | [e [He _]]]; [now apply Hk | discriminate].
  - destruct Hm as [Hacc | [e' [He Hrej]]]; [now left | right].
    injection He as <-. now exists e.
Qed.

Lemma fails_fast_when (b : bool) (m : M unit) :
  fails_fast server m -> fails_fast server (when b m).
Proof. intros Hm. destruct b; [assumption | apply fails_fast_ret]. Qed.

Lemma fails_fast_for_each {A S : Type} (body : S -> A -> M S) (l : list A) (s : S) :
  (forall s x, fails_fast server (body s x)) -> fails_fast server (for_each body l s).
Proof.
  intros Hbody. revert s. induction l as [|x l IH]; intros s; cbn [for_each].
  - apply fails_fast_ret.
  - apply fails_fast_bind; [apply Hbody | intros s'; apply IH].
Qed.

End FailFast.

Ltac fails_fast_step :=
  first
    [ apply fails_fast_ret | apply fails_fast_raise | apply fails_fast_lift
    | apply fails_fast_get_data | apply fails_fast_assert_some | apply fails_fast_unbound
    | apply fails_fast_warn | apply fails_fast_modify_data | apply fails_fast_rp_api
    | apply fails_fast_when
    | apply fails_fast_for_each; intros ? ?
    | apply fails_fast_bind; [ | intros ?]
    | progress cbv beta iota zeta
    | match goal with
      | |- fails_fast _ (if ?b then _ else _) => destruct b
      | |- fails_fast _ (match ?x with _ => _ end) => destruct x
      end ].

Ltac fails_fast_all :=
  repeat (fails_fast_step
          || unfold go, check_options, execute_rp_import, process_test, test_item,
               upload_logs, upload_log, get_defect_type_locator, open_launch, open_suite,
               close_plan).

(** X1.  A request that ReportPortal rejects ends the report: whatever the
    plan, the options and the answers, after [go] either every request sent
    was accepted, or [go] has raised the [ReportError] that carries the status
    code of a rejected request, that request is the last one sent, and all
    the requests before it were accepted. *)
Theorem go_stops_at_first_rejected_request (bytes_repr : Z -> string)
    (lower : string -> string) (re_search : string -> string -> bool) (datetime : string)
    (server : list request -> request -> response) (step : Step)
    (d : ReportReportPortalData) :
  accepted_or_stopped server
    (go bytes_repr lower re_search datetime server step (start d)).
Proof.
  cut (fails_fast server (go bytes_repr lower re_search datetime server step)).
  { intros H. apply H. apply all_accepted_nil. }
  fails_fast_all.
Qed.

(** ** Configuration and sanitisation, further properties *)

(** X2.  Missing configuration is fatal before any network activity: when
    the URL, the project or the token is missing or empty, or there is no
    run, [go] raises a [ReportError], sends no request and prints no
    warning. *)
Theorem go_missing_configuration (bytes_repr : Z -> string) (lower : string -> string)
    (re_search : string -> string -> bool) (datetime : string)
    (server : list request -> request -> response) (step : Step)
    (d : ReportReportPortalData) :
  configured step d = false ->
  let out := go bytes_repr lower re_search datetime server step (start d) in
  (exists missing, fst out = Exc (ReportError_config missing))
  /\ trace (snd out) = []
  /\ warnings (snd out) = [].
Proof.
  unfold configured, go, bind, get_data, modify_data, raise. cbn [start data trace warnings].
  intros H. cbv zeta.
  destruct (truthy (url d)); cbn [negb].
  2:{ split; [now eexists | split; reflexivity]. }
  cbn [data project token set_url].
  destruct (truthy (project d)); cbn [negb].
  2:{ split; [now eexists | split; reflexivity]. }
  destruct (truthy (token d)); cbn [negb].
  2:{ split; [now eexists | split; reflexivity]. }
  destruct (my_run_plans step); [discriminate |].
  split; [now eexists | split; reflexivity].
Qed.

Lemma go_missing_configuration_witness :
  fst (go Ex.bytes_repr Ex.lower Ex.re_search "2024-05-01T12:00:00" Ex.server
         Ex.step_single (start Ex2.data_no_url))
  = Exc (ReportError_config "url")
  /\ trace (snd (go Ex.bytes_repr Ex.lower Ex.re_search "2024-05-01T12:00:00" Ex.server
                   Ex.step_single (start Ex2.data_no_url))) = [].
Proof.
  destruct (go_missing_configuration Ex.bytes_repr Ex.lower Ex.re_search
              "2024-05-01T12:00:00" Ex.server Ex.step_single Ex2.data_no_url eq_refl)
    as [_ [Htr _]].
  split; [reflexivity | exact Htr].
Defined.

Lemma _filter_log_in_ranges (bytes_repr : Z -> string) (log : text)
    (settings : option LogFilterSettings) :
  Forall in_xml_safe_ranges (_filter_log bytes_repr log settings).
Proof.
  rewrite _filter_log_unfold. unfold _filter_invalid_chars.
  apply List.Forall_forall. intros c Hc. apply List.filter_In in Hc as [_ Hc].
  now apply xml_safe_ranges.
Qed.

Lemma filter_all {A : Type} (f : A -> bool) (l : list A) :
  Forall (fun x => f x = true) l -> List.filter f l = l.
Proof.
  induction l as [|x l IH]; intros H; cbn; [reflexivity |].
  apply List.Forall_cons_iff in H as [Hx Hl]. rewrite Hx. f_equal. now apply IH.
Qed.

(** X3.  A text within the size limit is a fixed point of the sanitisation
    exactly when all its code points are XML-safe: clean short logs are
    uploaded as they are, and any other log of that size is changed. *)
Theorem _filter_log_fixed_point (bytes_repr : Z -> string) (log : text)
    (settings : LogFilterSettings) :
  Z.of_nat (length log) <= to_bytes (size settings) ->
  _filter_log bytes_repr log (Some settings) = log <-> Forall in_xml_safe_ranges log.
Proof.
  intros Hlen. split.
  - intros Heq. rewrite <- Heq. apply _filter_log_in_ranges.
  - intros Hsafe. rewrite _filter_log_unfold.
    change (default default_LogFilterSettings (Some settings)) with settings.
    destruct (_filter_log_per_size_by_length bytes_repr log settings) as [Hshort _].
    rewrite Hshort by assumption. unfold _filter_invalid_chars. apply filter_all.
    eapply List.Forall_impl; [|exact Hsafe]. intros c Hc. now apply xml_safe_ranges.
Qed.

Lemma _filter_log_fixed_point_witness :
  _filter_log Ex.bytes_repr Ex.hello (Some default_LogFilterSettings) = Ex.hello.
Proof.
  assert (Hlen : Z.of_nat (length Ex.hello) <= to_bytes (size default_LogFilterSettings)).
  { vm_compute. discriminate. }
  apply (proj2 (_filter_log_fixed_point Ex.bytes_repr Ex.hello default_LogFilterSettings Hlen)).
  apply List.Forall_forall. intros c Hc. vm_compute in Hc.
  repeat (destruct Hc as [<-|Hc]; [unfold in_xml_safe_ranges; lia |]). destruct Hc.
Defined.

Lemma filter_length_le {A : Type} (f : A -> bool) (l : list A) :
  (length (List.filter f l) <= length l)%nat.
Proof.
  induction l as [|x l IH]; cbn; [lia |]. destruct (f x); cbn; lia.
Qed.

(** X4.  For a limit that is not negative, the sanitised text is never
    longer than the banner followed by as many code points as the limit has
    bytes; a text within the limit is never made longer. *)
Theorem _filter_log_length (bytes_repr : Z -> string) (log : text)
    (settings : LogFilterSettings) :
  0 <= to_bytes (size settings) ->
  let banner :=
    text_of_string (size_header (UNITS_bytes bytes_repr (Z.of_nat (length log))) settings) in
  Z.of_nat (length (_filter_log bytes_repr log (Some settings)))
  <= Z.of_nat (length banner) + to_bytes (size settings)
  /\ (Z.of_nat (length log) <= to_bytes (size settings) ->
      (length (_filter_log bytes_repr log (Some settings)) <= length log)%nat).
Proof.
  intros Hlimit banner. subst banner. rewrite _filter_log_unfold.
  change (default default_LogFilterSettings (Some settings)) with settings.
  unfold _filter_invalid_chars.
  destruct (_filter_log_per_size_by_length bytes_repr log settings) as [Hshort Hlong].
  split.
  - pose proof (filter_length_le xml_safe (_filter_log_per_size bytes_repr log settings)) as Hf.
    destruct (Z_le_gt_dec (Z.of_nat (length log)) (to_bytes (size settings))) as [Hle|Hgt].
    + rewrite Hshort in * by assumption. lia.
    + rewrite Hlong in * by lia. rewrite List.length_app in Hf.
      pose proof (py_slice_to_length (to_bytes (size settings)) log Hlimit). lia.
  - intros Hle. rewrite Hshort by assumption. apply filter_length_le.
Qed.

Lemma _filter_log_length_witness :
  (length (_filter_log Ex.bytes_repr Ex.hello (Some Ex2.limit_3)) <= 3 + 246)%nat.
Proof.
  assert (Hlimit : 0 <= to_bytes (size Ex2.limit_3)) by (vm_compute; discriminate).
  pose proof (proj1 (_filter_log_length Ex.bytes_repr Ex.hello Ex2.limit_3 Hlimit)) as H.
  cbv zeta in H.
  assert (Hb : length (text_of_string
                         (size_header (UNITS_bytes Ex.bytes_repr (Z.of_nat (length Ex.hello)))
                            Ex2.limit_3)) = 246%nat) by (vm_compute; reflexivity).
  rewrite Hb in H. change (to_bytes (size Ex2.limit_3)) with 3 in H. lia.
Defined.

(** X6.  In suite-per-plan topology the launch attributes are taken from the
    last plan of the run: they are a selection of its first context values,
    in the order of its context; for a run of one plan they are all of
    them. *)
Theorem launch_attributes_from_last_plan (init : list Plan) (last_plan : Plan)
    (attributes : list attribute) :
  Forall context_ok (init ++ [last_plan]) ->
  (exists keep,
      construct_launch_attributes (Some (init ++ [last_plan])) true attributes
      = Val (List.filter keep (first_values last_plan)))
  /\ (init = [] ->
      construct_launch_attributes (Some [last_plan]) true attributes
      = Val (first_values last_plan)).
Proof.
  intros Hok.
  pose proof (first_values_NoDup _ Hok) as Hnd.
  unfold construct_launch_attributes. rewrite comprehension_merged_plan by assumption.
  rewrite List.map_app in *. cbn [List.map] in *.
  apply List.Forall_app in Hnd as [Hinit Hlast].
  apply List.Forall_cons_iff in Hlast as [Hlast _].
  apply List.Forall_app in Hok as [_ Hok_last].
  apply List.Forall_cons_iff in Hok_last as [Hok_last _].
  split.
  - destruct init as [|p init]; cbn [List.map app].
    + exists (fun _ => true). cbn [fold_left]. f_equal. symmetry. apply filter_all.
      apply List.Forall_forall. reflexivity.
    + rewrite List.fold_left_app. cbn [fold_left].
      eexists. f_equal. now apply common_items_filter.
  - intros _. unfold construct_launch_attributes.
    rewrite (comprehension_merged_plan [last_plan]) by now constructor.
    reflexivity.
Qed.

Lemma launch_attributes_from_last_plan_witness :
  exists keep,
    construct_launch_attributes (Some ([Ex.plan_abc1; Ex.plan_abc2] ++ [Ex.plan_abc3])) true []
    = Val (List.filter keep (first_values Ex.plan_abc3)).
Proof.
  apply (launch_attributes_from_last_plan [Ex.plan_abc1; Ex.plan_abc2] Ex.plan_abc3 []).
  repeat constructor; cbn; try discriminate; intros H; cbn in H;
    repeat (destruct H as [H|H]; try discriminate); assumption.
Defined.

Lemma comprehension_first_value_raises (ctx : dict (list string)) :
  Exists (fun kv => snd kv = []) ctx -> comprehension first_value ctx = Exc IndexError.
Proof.
  induction 1 as [[k vs] ctx Hx | [k vs] ctx _ IH]; cbn [comprehension].
  - cbn in Hx. subst vs. reflexivity.
  - unfold first_value at 1. cbn [fst snd]. destruct vs; [reflexivity |]. now rewrite IH.
Qed.

(** X7.  A run without plans, or a context key without a value in the
    current plan, makes the import raise [IndexError] before anything is
    sent: the state is left as it was. *)
Theorem import_raises_IndexError_before_any_request (bytes_repr : Z -> string)
    (lower : string -> string) (re_search : string -> string -> bool) (datetime : string)
    (server : list request -> request -> response) (step : Step) (w : world) :
  my_run_plans step = Some []
  \/ (my_run_plans step <> None
      /\ Exists (fun kv => snd kv = []) (_fmf_context (plan step))) ->
  execute_rp_import bytes_repr lower re_search datetime server step w
  = (Exc IndexError, w).
Proof.
  intros H. unfold execute_rp_import.
  destruct (my_run_plans step) as [[|p plans]|] eqn:Hrun.
  - reflexivity.
  - destruct H as [H | [_ Hctx]]; [discriminate |].
    unfold bind at 1. cbn [assert_some ret]. unfold bind at 1, get_data at 1.
    unfold bind at 1. cbn [ret]. unfold bind at 1, lift at 1.
    now rewrite comprehension_first_value_raises.
  - destruct H as [H | [H _]]; [discriminate | contradiction].
Qed.

Lemma import_raises_IndexError_before_any_request_witness :
  Ex.run Ex.server Ex2.step_no_value Ex.data0 = (Exc IndexError, start Ex.data0).
Proof.
  apply import_raises_IndexError_before_any_request.
  right. split; [discriminate |]. apply List.Exists_cons_tl. now apply List.Exists_cons_hd.
Defined.

(** X8.  [check_options] changes nothing of the data but [suite_per_plan],
    which it clears exactly when [launch_per_plan] is set; afterwards the
    two flags are never both set, and a second call leaves the data as they
    are and does not repeat the warning about the two flags. *)
Theorem check_options_settles_the_flags (w : world) :
  let w1 := snd (check_options w) in
  let w2 := snd (check_options w1) in
  data w1
  = set_suite_per_plan (suite_per_plan (data w) && negb (launch_per_plan (data w))) (data w)
  /\ launch_per_plan (data w1) && suite_per_plan (data w1) = false
  /\ data w2 = data w1
  /\ exists more, warnings w2 = (warnings w1 ++ more)%list
                  /\ ~ In MUTUALLY_EXCLUSIVE_WARNING more.
Proof.
  destruct w as [tr d ws].
  destruct d as [u tk pj la ld lpp spp utl uts lr dt lsl tsl ev au ssl lu luu su tu].
  unfold check_options, bind, get_data, when, warn, modify_data, ret,
    MUTUALLY_EXCLUSIVE_WARNING.
  destruct lpp, spp, lr, utl as [[|? ?]|], uts as [[|? ?]|]; cbn;
    (split; [reflexivity |]); (split; [reflexivity |]); (split; [reflexivity |]);
    eexists;
    (split; [first [ symmetry; apply List.app_nil_r
                   | rewrite <- !List.app_assoc; reflexivity ] |]);
    cbn; intuition discriminate.
Qed.

(** ** The report as a whole, further properties *)

Ltac frame_all r t :=
  repeat (frame_step r t
          || unfold go, check_options, execute_rp_import, process_test, test_item,
               upload_logs, upload_log, get_defect_type_locator, open_launch, open_suite,
               close_plan).

(** X5.  Whatever the logs and the failure texts of the results hold, every
    log entry [go] sends carries a message made of XML-safe code points
    only. *)
Theorem go_sends_safe_messages (bytes_repr : Z -> string) (lower : string -> string)
    (re_search : string -> string -> bool) (datetime : string)
    (server : list request -> request -> response) (step : Step)
    (d : ReportReportPortalData) :
  Forall safe_message
    (trace (snd (go bytes_repr lower re_search datetime server step (start d)))).
Proof.
  cut (respects safe_message any_data
         (go bytes_repr lower re_search datetime server step)).
  { intros H. destruct (H (start d)) as [[l [Htr Hall]] _].
    cbn [start trace app] in Htr. now rewrite Htr. }
  frame_all any_data_refl any_data_trans;
    first [ exact I | apply _filter_log_in_ranges ].
Qed.

Section DefectTypeNames.

Variable lower : string -> string.
Variable server : list request -> request -> response.

Lemma search_groups_lower (defect_types : dict (list DefectType)) (n1 n2 : string)
    (groups : list string) (init : option string) :
  lower n1 = lower n2 ->
  search_groups lower defect_types n1 groups init
  = search_groups lower defect_types n2 groups init.
Proof.
  intros Heq. revert init. induction groups as [|g groups IH]; intros init; [reflexivity |].
  cbn [search_groups]. destruct (dict_get defect_types g) as [l|]; [|reflexivity].
  unfold group_locator. rewrite Heq. fold (group_locator lower l n2).
  destruct (truthy (group_locator lower l n2)); [reflexivity | apply IH].
Qed.

End DefectTypeNames.

(** X9.  Defect-type resolution does not depend on the case of the name: two
    non-empty names with the same lower-case form send the same request and
    resolve to the same locator. *)
Theorem defect_type_name_case (lower : string -> string)
    (server : list request -> request -> response) (w : world) (n1 n2 : string) :
  n1 <> "" -> n2 <> "" -> lower n1 = lower n2 ->
  snd (get_defect_type_locator lower server (Some n1) w)
  = snd (get_defect_type_locator lower server (Some n2) w)
  /\ forall loc,
       fst (get_defect_type_locator lower server (Some n1) w) = Val loc
       <-> fst (get_defect_type_locator lower server (Some n2) w) = Val loc.
Proof.
  intros H1 H2 Heq.
  rewrite !get_defect_type_locator_named by assumption. cbn zeta. cbn [fst snd].
  split; [reflexivity |]. intros loc.
  destruct (ok (server (trace w) GET_settings)); [|split; discriminate].
  destruct (r_subTypes (server (trace w) GET_settings)) as [[|g dts]|]; try reflexivity.
  rewrite (search_groups_lower lower (g :: dts) n1 n2 GROUPS_TO_SEARCH None Heq).
  destruct (search_groups lower (g :: dts) n2 GROUPS_TO_SEARCH None) as [l|e];
    [|reflexivity].
  destruct (truthy l); [reflexivity | split; discriminate].
Qed.

Lemma defect_type_name_case_witness :
  fst (get_defect_type_locator Ex.lower Ex.server (Some "IDLE") (start Ex.data0))
  = Val "ab_idle".
Proof.
  assert (H1 : "idle" <> "") by discriminate.
  assert (H2 : "IDLE" <> "") by discriminate.
  apply (proj2 (defect_type_name_case Ex.lower Ex.server (start Ex.data0) "idle" "IDLE"
                  H1 H2 eq_refl)).
  reflexivity.
Defined.

Lemma or_str_falsy (o : option string) (d : string) : truthy o = false -> or_str o d = d.
Proof.
  destruct o as [s|]; [|reflexivity]. cbn. now destruct (String.eqb s "").
Qed.

(** Steps of the analysis that keep the values a program computes without
    sending anything. *)
Ltac frame_value_step :=
  match goal with
  | |- respects ?P ?Q (bind (ret ?a) ?k) =>
      change (respects P Q (k a)); cbv beta iota zeta
  | |- respects ?P ?Q (bind (get_defect_type_locator ?l ?s (Some EmptyString)) ?k) =>
      change (respects P Q (k "ti001")); cbv beta iota zeta
  | |- respects ?P ?Q (bind (lift (Val ?a)) ?k) =>
      change (respects P Q (k a)); cbv beta iota zeta
  | |- respects _ _ (bind (match ?x with _ => _ end) _) => destruct x eqn:?
  | |- respects _ _ (modify_data _) => apply respects_modify_data; intros ?
  | |- respects _ _ (when ?b _) => destruct b eqn:?; unfold when
  | |- respects _ _ (bind (when ?b _) _) => destruct b eqn:?; unfold when
  end.

Ltac frame_values r t :=
  repeat (frame_value_step || frame_step r t
          || unfold process_test, test_item, upload_logs, upload_log,
               open_launch, open_suite, close_plan
          || unfold get_defect_type_locator).

Section ImportRun.

Variable bytes_repr : Z -> string.
Variable lower : string -> string.
Variable re_search : string -> string -> bool.
Variable datetime : string.
Variable server : list request -> request -> response.
Variable step : Step.

Lemma import_default_issue_only (d : ReportReportPortalData) :
  truthy (defect_type d) = false ->
  steps default_issue_only any_data (start d)
    (snd (execute_rp_import bytes_repr lower re_search datetime server step (start d))).
Proof.
  intros Hdt. unfold execute_rp_import.
  destruct (my_run_plans step) as [plans|] eqn:Hrun; cbn [assert_some].
  2:{ apply (steps_refl _ _ any_data_refl). }
  unfold bind at 1. cbn [ret]. unfold bind at 1, get_data at 1. cbn [data start].
  rewrite (or_str_falsy (defect_type d) "" Hdt).
  match goal with
  | |- steps ?P ?Q ?w (snd (?m ?w)) => cut (respects P Q m); [intros Hr; exact (Hr w) |]
  end.
  frame_values any_data_refl any_data_trans; try exact I; reflexivity.
Qed.

Lemma import_creates_only_if (d : ReportReportPortalData) :
  steps (creates_only_if (create_launch step d) (create_suite d)) any_data (start d)
    (snd (execute_rp_import bytes_repr lower re_search datetime server step (start d))).
Proof.
  unfold execute_rp_import.
  destruct (my_run_plans step) as [plans|] eqn:Hrun; cbn [assert_some].
  2:{ apply (steps_refl _ _ any_data_refl). }
  unfold bind at 1. cbn [ret]. unfold bind at 1, get_data at 1. cbn [data start].
  match goal with
  | |- steps ?P ?Q ?w (snd (?m ?w)) => cut (respects P Q m); [intros Hr; exact (Hr w) |]
  end.
  frame_values any_data_refl any_data_trans;
    first [ exact I | reflexivity
          | unfold create_launch, inherited_launch_uuid, creates_only_if; assumption ].
Qed.

End ImportRun.

(** X10.  With no defect type configured, the import never fetches the
    settings of the project, and every test item is finished with the
    default locator "ti001". *)
Theorem import_without_defect_type (bytes_repr : Z -> string) (lower : string -> string)
    (re_search : string -> string -> bool) (datetime : string)
    (server : list request -> request -> response) (step : Step)
    (d : ReportReportPortalData) :
  truthy (defect_type d) = false ->
  Forall default_issue_only
    (trace (snd (execute_rp_import bytes_repr lower re_search datetime server step
                   (start d)))).
Proof.
  intros Hdt.
  destruct (import_default_issue_only bytes_repr lower re_search datetime server step d Hdt)
    as [[l [Htr Hall]] _].
  cbn [start trace app] in Htr. now rewrite Htr.
Qed.

Lemma import_without_defect_type_witness :
  Forall default_issue_only (trace (snd (Ex.run Ex.server Ex.step_single Ex.data0))).
Proof.
  apply import_without_defect_type. reflexivity.
Defined.

(** X11.  A launch is created only when nothing identifies an existing one:
    no [upload_to_launch], no [upload_to_suite], no persisted suite, and no
    launch persisted or taken over from the first plan.  A suite is created,
    and finished, only in suite-per-plan topology with no persisted suite and
    no [upload_to_suite]. *)
Theorem import_creates_only_what_is_missing (bytes_repr : Z -> string)
    (lower : string -> string) (re_search : string -> string -> bool) (datetime : string)
    (server : list request -> request -> response) (step : Step)
    (d : ReportReportPortalData) :
  Forall (creates_only_if (create_launch step d) (create_suite d))
    (trace (snd (execute_rp_import bytes_repr lower re_search datetime server step
                   (start d)))).
Proof.
  destruct (import_creates_only_if bytes_repr lower re_search datetime server step d)
    as [[l [Htr Hall]] _].
  cbn [start trace app] in Htr. now rewrite Htr.
Qed.

(** X12.  The finish call of a test is the last request of its iteration.
    Its status is the mapped outcome when a log of the result was read, and
    SKIPPED otherwise: for a result without readable log and for an idle
    test, which also uploads no log entry. *)
Theorem finish_call_of_a_test (bytes_repr : Z -> string) (lower : string -> string)
    (re_search : string -> string -> bool)
    (server : list request -> request -> response) (step : Step)
    (ct lpp : bool) (attributes : list attribute) (pattern defect : string)
    (su : option string) (lu : string) (vars vars' : loop_vars)
    (rt : option Result * option Test) (w w' : world) :
  (forall h m i l lvl t, ok (server h (POST_log_entry m i l lvl t)) = true) ->
  process_test bytes_repr lower re_search server step ct lpp attributes pattern defect
    su lu vars rt w = (Val vars', w') ->
  (exists before item_uuid time issue,
      trace w'
      = (before ++ [PUT_item item_uuid lu time (sent_status (execute_read step) (fst rt))
                      issue])%list)
  /\ (forall r, fst rt = Some r ->
        sent_status (execute_read step) (fst rt)
        = if List.existsb
               (fun p => match execute_read step p with Some _ => true | None => false end)
               (log r)
          then TMT_TO_RP_RESULT_STATUS (result r)
          else "SKIPPED")
  /\ (fst rt = None ->
      sent_status (execute_read step) (fst rt) = "SKIPPED"
      /\ exists sent, trace w' = (trace w ++ sent)%list /\ Forall not_log_entry sent).
Proof.
  intros Hok H. split; [|split].
  - eapply process_test_finish_status; eassumption.
  - intros r ->. reflexivity.
  - destruct rt as [[r|] t]; [discriminate |]. intros _. split; [reflexivity |].
    destruct (process_test_idle_no_logs bytes_repr lower re_search server step ct lpp
                attributes pattern defect su lu vars t w) as [Hsent _].
    rewrite H in Hsent. exact Hsent.
Qed.

Lemma finish_call_of_a_test_witness :
  exists before item_uuid time issue,
    trace (snd (process_test Ex.bytes_repr Ex.lower Ex.re_search Ex.server Ex.step_single
                  true true [] "^TMT_.*" "" None "launch-uuid" (mkLoopVars "t0" "t0" None)
                  (Some Ex.result_fail, Some Ex.test_fail) (start Ex.data0)))
    = (before ++ [PUT_item item_uuid "launch-uuid" time "FAILED" issue])%list.
Proof.
  assert (Hok : forall h m i l lvl t, ok (Ex.server h (POST_log_entry m i l lvl t)) = true)
    by reflexivity.
  eassert (Hrun : process_test Ex.bytes_repr Ex.lower Ex.re_search Ex.server Ex.step_single
                    true true [] "^TMT_.*" "" None "launch-uuid" (mkLoopVars "t0" "t0" None)
                    (Some Ex.result_fail, Some Ex.test_fail) (start Ex.data0)
                  = (Val _, _)) by (vm_compute; reflexivity).
  destruct (finish_call_of_a_test _ _ _ _ _ _ _ _ _ _ _ _ _ _ _ _ _ Hok Hrun)
    as [Hlast _].
  rewrite Hrun. exact Hlast.
Defined.

Lemma keeps_entries_refl (d : ReportReportPortalData) : keeps_entries d d.
Proof. intros s H. exact H. Qed.

Lemma keeps_entries_trans (a b c : ReportReportPortalData) :
  keeps_entries a b -> keeps_entries b c -> keeps_entries a c.
Proof. intros Hab Hbc s H. apply Hbc, Hab, H. Qed.

(** Closes what the analysis leaves when the entries of the map are to be
    kept. *)
Ltac keeps_leaf :=
  first [ exact I
        | intros ? ?; assumption
        | let s := fresh "s" in
          let Hs := fresh "Hs" in
          intros s Hs; cbn [test_uuids set_test_uuids];
          match goal with
          | |- is_Some (<[?k := _]> _ !! _) =>
              destruct (decide (k = s)) as [<-|?];
              [rewrite lookup_insert_eq; eauto
              | rewrite lookup_insert_ne by assumption; exact Hs]
          end ].

Section Entries.

Variable bytes_repr : Z -> string.
Variable lower : string -> string.
Variable re_search : string -> string -> bool.
Variable datetime : string.
Variable server : list request -> request -> response.
Variable step : Step.

Lemma process_test_keeps_entries (ct lpp : bool) (attributes : list attribute)
    (pattern defect : string) (su : option string) (lu : string) (vars : loop_vars)
    (rt : option Result * option Test) :
  respects any_request keeps_entries
    (process_test bytes_repr lower re_search server step ct lpp attributes pattern defect
       su lu vars rt).
Proof.
  frame_values keeps_entries_refl keeps_entries_trans; keeps_leaf.
Qed.

(** A completed iteration leaves an entry for the serial number of its
    pair. *)
Lemma process_test_files_serial (ct lpp : bool) (attributes : list attribute)
    (pattern defect : string) (su : option string) (lu : string) (vars vars' : loop_vars)
    (rt : option Result * option Test) (sn : Z) (w w' : world) :
  pair_serial rt = Some sn ->
  process_test bytes_repr lower re_search server step ct lpp attributes pattern defect
    su lu vars rt w = (Val vars', w') ->
  is_Some (test_uuids (data w') !! sn).
Proof.
  intros Hsn H.
  assert (Hitem : forall lpp su lu name description attrs env_vars link id time w1 item_uuid,
             test_item server ct lpp su lu (Some sn) name description attrs env_vars link id
               time w = (Val item_uuid, w1) ->
             is_Some (test_uuids (data w1) !! sn)).
  { intros ? ? ? ? ? ? ? ? ? ? w1 item_uuid Hti. destruct ct.
    - apply test_item_create in Hti as (r & _ & _ & _ & ->).
      rewrite lookup_insert_eq. eauto.
    - rewrite test_item_reuse in Hti.
      destruct (test_uuids (data w) !! sn) eqn:Hl; [|discriminate].
      injection Hti as _ <-. rewrite Hl. eauto. }
  assert (Hrest : forall (m : M loop_vars) w1,
             respects any_request same_uuids m ->
             is_Some (test_uuids (data w1) !! sn) ->
             m w1 = (Val vars', w') -> is_Some (test_uuids (data w') !! sn)).
  { intros m w1 Hm Hs Heq. destruct (Hm w1) as [_ Hsame]. rewrite Heq in Hsame.
    cbn [snd] in Hsame. unfold same_uuids in Hsame. now rewrite Hsame. }
  destruct rt as [[r|] [t|]]; cbn in Hsn; try discriminate; injection Hsn as <-;
    unfold process_test in H; cbv beta iota zeta in H;
    apply bind_Val in H as (item_uuid & w1 & Hti & H);
    (eapply Hrest; [| eapply Hitem; exact Hti | exact H]);
    frame same_uuids_refl same_uuids_trans; frame_leaf.
Qed.

Lemma for_each_files_serials (ct lpp : bool) (attributes : list attribute)
    (pattern defect : string) (su : option string) (lu : string)
    (l : list (option Result * option Test)) :
  forall (vars vars' : loop_vars) (w w' : world),
    for_each (process_test bytes_repr lower re_search server step ct lpp attributes pattern
                defect su lu) l vars w = (Val vars', w') ->
    keeps_entries (data w) (data w')
    /\ forall rt sn, In rt l -> pair_serial rt = Some sn ->
                     is_Some (test_uuids (data w') !! sn).
Proof.
  induction l as [|x l IH]; intros vars vars' w w' H; cbn [for_each] in H.
  - injection H as _ <-. split; [apply keeps_entries_refl | intros rt sn []].
  - apply bind_Val in H as (vars1 & w1 & Hx & H).
    destruct (IH _ _ _ _ H) as [Hkeep Hall].
    assert (Hkeep1 : keeps_entries (data w) (data w1)).
    { destruct (process_test_keeps_entries ct lpp attributes pattern defect su lu vars x w)
        as [_ Hk]. now rewrite Hx in Hk. }
    split; [eapply keeps_entries_trans; eassumption |].
    intros rt sn [<-|Hin] Hsn; [|eapply Hall; eassumption].
    apply Hkeep. eapply process_test_files_serial; eassumption.
Qed.

Lemma close_plan_same_uuids (plans : list Plan) (cs lpp spp : bool)
    (au su : option string) (lu lt first_url : string) :
  respects any_request same_uuids
    (close_plan server step plans cs lpp spp au su lu lt first_url).
Proof. frame same_uuids_refl same_uuids_trans; frame_leaf. Qed.

End Entries.

(** X13.  After an import that ends without an exception, the persisted map
    has an identifier for the serial number of every (result, test) pair it
    processed: a later invocation over the same tests finds what it needs to
    reuse. *)
Theorem import_files_every_serial (bytes_repr : Z -> string) (lower : string -> string)
    (re_search : string -> string -> bool) (datetime : string)
    (server : list request -> request -> response) (step : Step)
    (d : ReportReportPortalData) (w' : world) :
  execute_rp_import bytes_repr lower re_search datetime server step (start d)
  = (Val tt, w') ->
  forall rt sn, In rt (results_for_tests step) -> pair_serial rt = Some sn ->
                is_Some (test_uuids (data w') !! sn).
Proof.
  intros H rt sn Hin Hsn. unfold execute_rp_import in H.
  apply bind_Val in H as (plans & w0 & _ & H).
  apply bind_Val in H as (d0 & w1 & _ & H).
  apply bind_Val in H as (first & w2 & _ & H).
  apply bind_Val in H as (attributes & w3 & _ & H).
  apply bind_Val in H as (launch_attributes & w4 & _ & H).
  cbv zeta in H.
  destruct (if suite_per_plan d0 then _ else _) as [ld sd] in H.
  destruct (if truthy (artifacts_url d0) then _ else _) as [ld' sd'] in H.
  apply bind_Val in H as (lv & w5 & _ & H).
  apply bind_Val in H as (su & w6 & _ & H).
  apply bind_Val in H as (vars & w7 & Hloop & Hclose).
  apply for_each_files_serials in Hloop as [_ Hall].
  match type of Hclose with
  | close_plan _ _ ?p ?cs ?lpp ?spp ?au ?s ?lu ?lt ?u _ = _ =>
      destruct (close_plan_same_uuids server step p cs lpp spp au s lu lt u w7) as [_ Hsame]
  end.
  rewrite Hclose in Hsame. cbn [snd] in Hsame. unfold same_uuids in Hsame.
  rewrite Hsame. eapply Hall; eassumption.
Qed.

Lemma import_files_every_serial_witness :
  is_Some (test_uuids (data (snd (Ex.run Ex.server Ex.step_single Ex.data0))) !! 2).
Proof.
  assert (Hrun : Ex.run Ex.server Ex.step_single Ex.data0
                 = (Val tt, snd (Ex.run Ex.server Ex.step_single Ex.data0))).
  { rewrite (surjective_pairing (Ex.run Ex.server Ex.step_single Ex.data0)) at 1.
    f_equal; vm_compute; reflexivity. }
  apply (import_files_every_serial _ _ _ _ _ _ _ _ Hrun
           (Some Ex.result_fail, Some Ex.test_fail) 2);
    [right; left; reflexivity | reflexivity].
Defined.

Lemma respects_impl (P P' : request -> Prop)
    (Q : ReportReportPortalData -> ReportReportPortalData -> Prop) {A : Type} (m : M A) :
  (forall r, P r -> P' r) -> respects P Q m -> respects P' Q m.
Proof.
  intros Himp Hm w. destruct (Hm w) as [[l [Htr Hall]] HQ].
  split; [|exact HQ]. exists l. split; [exact Htr |].
  revert Hall. apply List.Forall_impl. exact Himp.
Qed.

(** A loop respects what its body respects on the elements of the list. *)
Lemma respects_for_each_in (P : request -> Prop)
    (Q : ReportReportPortalData -> ReportReportPortalData -> Prop)
    (Q_refl : forall d, Q d d) (Q_trans : forall a b c, Q a b -> Q b c -> Q a c)
    {A S : Type} (body : S -> A -> M S) (l : list A) (s : S) :
  (forall s x, In x l -> respects P Q (body s x)) -> respects P Q (for_each body l s).
Proof.
  revert s. induction l as [|x l IH]; intros s Hbody; cbn [for_each].
  - apply (respects_ret _ _ Q_refl).
  - apply (respects_bind _ _ Q_trans).
    + apply Hbody. now left.
    + intros s'. apply IH. intros s0 y Hy. apply Hbody. now right.
Qed.

Lemma item_payload_plan_payload (re_search : string -> string -> bool)
    (attributes : list attribute) (pattern : string)
    (pairs : list (option Result * option Test)) (r : request) :
  item_payload re_search attributes pattern pairs r ->
  plan_payload re_search attributes pattern r.
Proof.
  destruct r; cbn; try tauto.
  intros [rt [_ [-> ->]]]. split.
  - now eexists.
  - intros l kv Hparams Hin. unfold parameters_of in Hparams.
    destruct (snd rt) as [t|]; [|discriminate]. cbn [option_map] in Hparams.
    injection Hparams as <-. apply List.filter_In in Hin as [_ Hin].
    now apply negb_true_iff in Hin.
Qed.

Section Payload.

Variable bytes_repr : Z -> string.
Variable lower : string -> string.
Variable re_search : string -> string -> bool.
Variable datetime : string.
Variable server : list request -> request -> response.
Variable step : Step.

Lemma process_test_payload (ct lpp : bool) (attributes : list attribute)
    (pattern defect : string) (su : option string) (lu : string) (vars : loop_vars)
    (rt : option Result * option Test) :
  respects (item_payload re_search attributes pattern [rt]) any_data
    (process_test bytes_repr lower re_search server step ct lpp attributes pattern defect
       su lu vars rt).
Proof.
  destruct rt as [[r|] [t|]]; unfold process_test; cbv beta iota zeta;
    frame_values any_data_refl any_data_trans; try exact I;
    (eexists; split; [left; reflexivity |];
     unfold item_attributes_of, contact_attribute, parameters_of;
     cbn [fst snd option_map]; split;
     [ first [ rewrite <- List.app_assoc; reflexivity
             | rewrite !List.app_nil_r; reflexivity
             | reflexivity ]
     | reflexivity ]).
Qed.

Lemma import_item_payload (d : ReportReportPortalData) (attributes : list attribute) :
  comprehension first_value (_fmf_context (plan step)) = Val attributes ->
  steps (item_payload re_search attributes (envar_pattern d) (results_for_tests step))
    any_data (start d)
    (snd (execute_rp_import bytes_repr lower re_search datetime server step (start d))).
Proof.
  intros Hattrs. unfold execute_rp_import.
  destruct (my_run_plans step) as [plans|] eqn:Hrun; cbn [assert_some].
  2:{ apply (steps_refl _ _ any_data_refl). }
  unfold bind at 1. cbn [ret]. unfold bind at 1, get_data at 1. cbn [data start].
  rewrite Hattrs.
  match goal with
  | |- steps ?P ?Q ?w (snd (?m ?w)) => cut (respects P Q m); [intros Hr; exact (Hr w) |]
  end.
  repeat (match goal with
          | |- respects _ _ (for_each (process_test _ _ _ _ _ _ _ _ _ _ _ _) _ _) =>
              apply (respects_for_each_in _ _ any_data_refl any_data_trans);
              intros ? rt Hrt;
              apply (respects_impl (item_payload re_search attributes (envar_pattern d)
                                      [rt]));
              [ intros [] Hr; try exact Hr;
                destruct Hr as [rt' [[<- | []] Hr]]; exists rt; split; assumption
              | apply process_test_payload ]
          end
          || frame_value_step || frame_step any_data_refl any_data_trans
          || unfold open_launch, open_suite, close_plan
          || unfold get_defect_type_locator);
    first [ exact I | reflexivity ].
Qed.

End Payload.

(** X14.  The items created for a plan carry its context.  A suite gets the
    first context values of the plan as its attributes.  Every test item is
    that of one pair of [results_for_tests]: its attributes are the first
    context values of the plan, then the attributes of the guest of the
    result (primary address, name unless it is default-0, role), then the
    first contact of the test; its parameters are the environment variables
    of the test whose names do not match the exclusion pattern.  So the
    attributes of the plan come first, and no parameter matches the
    pattern. *)
Theorem import_payload_of_the_plan (bytes_repr : Z -> string) (lower : string -> string)
    (re_search : string -> string -> bool) (datetime : string)
    (server : list request -> request -> response) (step : Step)
    (d : ReportReportPortalData) (attributes : list attribute) :
  comprehension first_value (_fmf_context (plan step)) = Val attributes ->
  let sent :=
    trace (snd (execute_rp_import bytes_repr lower re_search datetime server step
                  (start d))) in
  Forall (item_payload re_search attributes (envar_pattern d) (results_for_tests step)) sent
  /\ Forall (plan_payload re_search attributes (envar_pattern d)) sent.
Proof.
  intros Hattrs sent.
  destruct (import_item_payload bytes_repr lower re_search datetime server step d
              attributes Hattrs) as [[l [Htr Hall]] _].
  cbn [start trace app] in Htr. fold sent in Htr. rewrite Htr.
  split; [exact Hall |].
  revert Hall. apply List.Forall_impl. apply item_payload_plan_payload.
Qed.

Lemma import_payload_of_the_plan_witness :
  In (POST_step None (Some "/tests/owned") "An owned test"
        [("a", "1"); ("b", "2"); ("guest_primary_address", "10.0.0.2");
         ("guest_name", "client"); ("guest_role", "client");
         ("contact", "owner@example.org")]
        (Some [("ARCH", "x86_64")]) None "launch-uuid" None "2024-05-01T10:00:40")
     (trace (snd (Ex.run Ex.server Ex.step_owned Ex.data0)))
  /\ Forall (item_payload Ex.re_search [("a", "1"); ("b", "2")] "^TMT_.*"
               [(Some Ex.result_owned, Some Ex.test_owned)])
       (trace (snd (Ex.run Ex.server Ex.step_owned Ex.data0)))
  /\ Forall (plan_payload Ex.re_search [("a", "1"); ("b", "2")] "^TMT_.*")
       (trace (snd (Ex.run Ex.server Ex.step_owned Ex.data0))).
Proof.
  split; [vm_compute; tauto |].
  apply (import_payload_of_the_plan Ex.bytes_repr Ex.lower Ex.re_search
           "2024-05-01T12:00:00" Ex.server Ex.step_owned Ex.data0).
  reflexivity.
Defined.

Lemma same_launch_uuid_refl (d : ReportReportPortalData) : same_launch_uuid d d.
Proof. reflexivity. Qed.

Lemma same_launch_uuid_trans (a b c : ReportReportPortalData) :
  same_launch_uuid a b -> same_launch_uuid b c -> same_launch_uuid a c.
Proof. unfold same_launch_uuid. congruence. Qed.

Lemma Forall_launch_lookup_carries (lu : string) (l : list request) :
  Forall launch_lookup l -> Forall (carries_launch lu) l.
Proof.
  apply List.Forall_impl. intros r Hr. destruct r; try exact I; contradiction.
Qed.

Section OneLaunch.

Variable bytes_repr : Z -> string.
Variable lower : string -> string.
Variable re_search : string -> string -> bool.
Variable datetime : string.
Variable server : list request -> request -> response.
Variable step : Step.

Lemma open_launch_lookup_only (cl : bool) (name description : string)
    (attrs : list attribute) (time : string) (rerun : bool)
    (suite_id launch_id su lu : option string) :
  respects launch_lookup any_data
    (open_launch server cl name description attrs time rerun suite_id launch_id su lu).
Proof. frame any_data_refl any_data_trans; exact I. Qed.

(** The launch identifier [open_launch] returns is the one it persists. *)
Lemma open_launch_persists (cl : bool) (name description : string)
    (attrs : list attribute) (time : string) (rerun : bool)
    (suite_id launch_id su lu : option string) (lv : launch_vars) (w w1 : world) :
  open_launch server cl name description attrs time rerun suite_id launch_id su lu w
  = (Val lv, w1) ->
  launch_uuid (data w1) = Some (lv_launch_uuid lv).
Proof.
  unfold open_launch. intros H.
  apply bind_Val in H as ([[[resp lu1] lid1] sv] & wa & _ & H).
  apply bind_Val in H as ([resp2 lid2] & wb & _ & H).
  apply bind_Val in H as (name' & wc & _ & H).
  apply bind_Val in H as (lu' & wd & _ & H).
  apply bind_Val in H as (? & we & Hmod & H).
  apply bind_Val in H as (d' & wf & Hget & H).
  injection H as <- <-. injection Hget as _ <-. injection Hmod as Hwe. subst we.
  reflexivity.
Qed.

Lemma import_one_launch (d : ReportReportPortalData) (out : res unit * world) :
  execute_rp_import bytes_repr lower re_search datetime server step (start d) = out ->
  exists lu,
    Forall (carries_launch lu) (trace (snd out))
    /\ (fst out = Val tt -> launch_uuid (data (snd out)) = Some lu).
Proof.
  assert (Hnothing : forall (e : exception) o, (@Exc unit e, start d) = o ->
             exists lu : string,
               Forall (carries_launch lu) (trace (snd o))
               /\ (fst o = Val tt -> launch_uuid (data (snd o)) = Some lu)).
  { intros e o <-. exists "". split; [constructor | discriminate]. }
  intros Hout. unfold execute_rp_import in Hout.
  destruct (my_run_plans step) as [plans|] eqn:Hrun; cbn [assert_some] in Hout;
    [|eapply Hnothing; exact Hout].
  unfold bind at 1 in Hout. cbn [ret] in Hout.
  unfold bind at 1, get_data at 1 in Hout. cbn [data start] in Hout.
  destruct plans as [|p plans]; unfold bind at 1 in Hout; cbn [raise ret] in Hout;
    [eapply Hnothing; exact Hout |].
  unfold bind at 1, lift at 1 in Hout.
  destruct (comprehension first_value (_fmf_context (plan step))) as [attributes|e];
    [|eapply Hnothing; exact Hout].
  unfold bind at 1, lift at 1 in Hout.
  destruct (construct_launch_attributes (Some (p :: plans)) (suite_per_plan d) attributes)
    as [launch_attributes|e]; [|eapply Hnothing; exact Hout].
  cbv zeta in Hout.
  destruct (if suite_per_plan d then _ else _) as [ld sd] in Hout.
  destruct (if truthy (artifacts_url d) then _ else _) as [ld' sd'] in Hout.
  unfold bind at 1 in Hout.
  match type of Hout with
  | context [open_launch server ?cl ?n ?de ?at' ?t ?rr ?sid ?lid ?su ?lu ?w0] =>
      pose proof (open_launch_lookup_only cl n de at' t rr sid lid su lu w0)
        as [[sent [Htr Hsent]] _];
      pose proof (open_launch_persists cl n de at' t rr sid lid su lu) as Hpersist;
      destruct (open_launch server cl n de at' t rr sid lid su lu w0)
        as [[lv|e] w1] eqn:Hopen;
      [specialize (Hpersist lv w0 w1 Hopen) | clear Hpersist]
  end; cbn [snd start trace app] in Htr.
  2:{ subst out. exists "". cbn [fst snd]. rewrite Htr.
      split; [now apply Forall_launch_lookup_carries | discriminate]. }
  exists (lv_launch_uuid lv).
  match type of Hout with
  | ?m w1 = out =>
      assert (Hrest : respects (carries_launch (lv_launch_uuid lv)) same_launch_uuid m)
  end.
  { frame_values same_launch_uuid_refl same_launch_uuid_trans;
      first [ exact I | reflexivity ]. }
  destruct (Hrest w1) as [[sent' [Htr' Hsent']] Hsame]. rewrite Hout in Htr', Hsame.
  split.
  - rewrite Htr', Htr. apply List.Forall_app. split; [|assumption].
    now apply Forall_launch_lookup_carries.
  - intros _. unfold same_launch_uuid in Hsame. now rewrite Hsame.
Qed.

End OneLaunch.

(** The state a completed import leaves names its launch; with a non-empty
    identifier, a persisted suite comes with its launch. *)
Lemma import_leaves_launch_before_suite (bytes_repr : Z -> string)
    (lower : string -> string) (re_search : string -> string -> bool) (datetime : string)
    (server : list request -> request -> response) (step : Step)
    (d : ReportReportPortalData) (w' : world) :
  execute_rp_import bytes_repr lower re_search datetime server step (start d)
  = (Val tt, w') ->
  exists lu, launch_uuid (data w') = Some lu
             /\ (lu <> "" -> launch_before_suite (data w')).
Proof.
  intros Hout.
  destruct (import_one_launch bytes_repr lower re_search datetime server step d _ Hout)
    as [lu [_ Hlu]].
  exists lu. cbn [fst snd] in Hlu. split; [exact (Hlu eq_refl) |].
  intros Hne _. rewrite (Hlu eq_refl). now apply truthy_Some.
Qed.

(** X15.  All the requests of one import that name a launch (suite and test
    items, log entries, finish calls) name the same launch, and an import
    that ends without an exception has persisted the identifier of that
    launch in [launch_uuid]. *)
Theorem import_uses_one_launch (bytes_repr : Z -> string) (lower : string -> string)
    (re_search : string -> string -> bool) (datetime : string)
    (server : list request -> request -> response) (step : Step)
    (d : ReportReportPortalData) :
  exists lu,
    Forall (carries_launch lu)
      (trace (snd (execute_rp_import bytes_repr lower re_search datetime server step
                     (start d))))
    /\ (fst (execute_rp_import bytes_repr lower re_search datetime server step (start d))
        = Val tt ->
        launch_uuid (data (snd (execute_rp_import bytes_repr lower re_search datetime
                                  server step (start d)))) = Some lu).
Proof.
  exact (import_one_launch bytes_repr lower re_search datetime server step d _ eq_refl).
Qed.

Lemma launch_first_app (l1 l2 : list request) :
  launch_first l1 -> Forall not_post_launch l2 ->
  (l1 = [] -> launch_first l2) -> launch_first (l1 ++ l2).
Proof.
  destruct l1 as [|r l1]; cbn; intros H1 H2 H3; [now apply H3 |].
  apply List.Forall_app. now split.
Qed.

Lemma Forall_launch_first (l : list request) : Forall not_post_launch l -> launch_first l.
Proof. destruct l as [|r l]; cbn; [trivial |]. intros H. now apply List.Forall_cons_iff in H. Qed.

Section LaunchFirst.

Variable bytes_repr : Z -> string.
Variable lower : string -> string.
Variable re_search : string -> string -> bool.
Variable datetime : string.
Variable server : list request -> request -> response.
Variable step : Step.

Lemma open_launch_launch_first (cl : bool) (name description : string)
    (attrs : list attribute) (time : string) (rerun : bool)
    (suite_id launch_id su lu : option string) (w : world) :
  exists sent,
    trace (snd (open_launch server cl name description attrs time rerun suite_id launch_id
                  su lu w)) = (trace w ++ sent)%list
    /\ launch_first sent.
Proof.
  destruct cl.
  - unfold open_launch. unfold bind at 1. unfold bind at 1. unfold rp_api at 1.
    destruct (ok (server (trace w) _)) eqn:Hok; cbn [snd trace].
    + cbn [ret].
      match goal with
      | |- exists sent, trace (snd (?m ?w1)) = _ /\ _ =>
          assert (Hrest : respects not_post_launch any_data m)
      end.
      { frame any_data_refl any_data_trans; exact I. }
      match goal with
      | |- exists sent, trace (snd (_ ?w1)) = _ /\ _ =>
          destruct (Hrest w1) as [[sent [Htr Hsent]] _]
      end.
      cbn [trace] in Htr. eexists. rewrite Htr, <- List.app_assoc.
      split; [reflexivity | exact Hsent].
    + eexists. split; [reflexivity | constructor].
  - assert (Hall : respects not_post_launch any_data
                     (open_launch server false name description attrs time rerun suite_id
                        launch_id su lu)).
    { frame any_data_refl any_data_trans; exact I. }
    destruct (Hall w) as [[sent [Htr Hsent]] _].
    exists sent. split; [exact Htr | now apply Forall_launch_first].
Qed.

Lemma import_launch_first (d : ReportReportPortalData) (out : res unit * world) :
  execute_rp_import bytes_repr lower re_search datetime server step (start d) = out ->
  launch_first (trace (snd out)).
Proof.
  assert (Hnothing : forall (e : exception) o, (@Exc unit e, start d) = o ->
             launch_first (trace (snd o))).
  { intros e o <-. exact I. }
  intros Hout. unfold execute_rp_import in Hout.
  destruct (my_run_plans step) as [plans|] eqn:Hrun; cbn [assert_some] in Hout;
    [|eapply Hnothing; exact Hout].
  unfold bind at 1 in Hout. cbn [ret] in Hout.
  unfold bind at 1, get_data at 1 in Hout. cbn [data start] in Hout.
  destruct plans as [|p plans]; unfold bind at 1 in Hout; cbn [raise ret] in Hout;
    [eapply Hnothing; exact Hout |].
  unfold bind at 1, lift at 1 in Hout.
  destruct (comprehension first_value (_fmf_context (plan step))) as [attributes|e];
    [|eapply Hnothing; exact Hout].
  unfold bind at 1, lift at 1 in Hout.
  destruct (construct_launch_attributes (Some (p :: plans)) (suite_per_plan d) attributes)
    as [launch_attributes|e]; [|eapply Hnothing; exact Hout].
  cbv zeta in Hout.
  destruct (if suite_per_plan d then _ else _) as [ld sd] in Hout.
  destruct (if truthy (artifacts_url d) then _ else _) as [ld' sd'] in Hout.
  unfold bind at 1 in Hout.
  match type of Hout with
  | context [open_launch server ?cl ?n ?de ?at' ?t ?rr ?sid ?lid ?su ?lu ?w0] =>
      destruct (open_launch_launch_first cl n de at' t rr sid lid su lu w0)
        as [sent [Htr Hsent]];
      destruct (open_launch server cl n de at' t rr sid lid su lu w0)
        as [[lv|e] w1] eqn:Hopen
  end; cbn [snd start trace app] in Htr.
  2:{ subst out. cbn [snd]. now rewrite Htr. }
  match type of Hout with
  | ?m w1 = out => assert (Hrest : respects not_post_launch any_data m)
  end.
  { frame any_data_refl any_data_trans; exact I. }
  destruct (Hrest w1) as [[sent' [Htr' Hsent']] _]. rewrite Hout in Htr'.
  rewrite Htr', Htr. apply launch_first_app; try assumption.
  intros _. now apply Forall_launch_first.
Qed.

(** One iteration of the loop over the tests names one test item. *)
Lemma process_test_one_item (ct lpp : bool) (attributes : list attribute)
    (pattern defect : string) (su : option string) (lu : string) (vars vars' : loop_vars)
    (rt : option Result * option Test) (w w' : world) :
  process_test bytes_repr lower re_search server step ct lpp attributes pattern defect
    su lu vars rt w = (Val vars', w') ->
  exists item_uuid sent,
    trace w' = (trace w ++ sent)%list
    /\ Forall (refers_to item_uuid) sent
    /\ forall sn, pair_serial rt = Some sn ->
                  test_uuids (data w') !! sn = Some item_uuid.
Proof.
  intros H.
  assert (Hitem : forall sn lpp su lu name description attrs env_vars link id time w1
                         item_uuid,
             test_item server ct lpp su lu (Some sn) name description attrs env_vars link id
               time w = (Val item_uuid, w1) ->
             test_uuids (data w1) !! sn = Some item_uuid).
  { intros sn ? ? ? ? ? ? ? ? ? ? w1 item_uuid Hti. destruct ct.
    - apply test_item_create in Hti as (r & _ & _ & _ & ->). apply lookup_insert_eq.
    - rewrite test_item_reuse in Hti.
      destruct (test_uuids (data w) !! sn) eqn:Hl; [|discriminate].
      injection Hti as <- <-. exact Hl. }
  assert (Hfirst : forall item_uuid sn lpp su lu name description attrs env_vars link id time,
             respects (refers_to item_uuid) any_data
               (test_item server ct lpp su lu sn name description attrs env_vars link id
                  time)).
  { intros. frame any_data_refl any_data_trans; exact I. }
  assert (Hcombine : forall item_uuid (m : M loop_vars) w1,
             (exists l1, trace w1 = (trace w ++ l1)%list /\ Forall (refers_to item_uuid) l1) ->
             respects (refers_to item_uuid) same_uuids m ->
             m w1 = (Val vars', w') ->
             (exists sent, trace w' = (trace w ++ sent)%list
                           /\ Forall (refers_to item_uuid) sent)
             /\ test_uuids (data w') = test_uuids (data w1)).
  { intros item_uuid m w1 [l1 [Htr1 Hl1]] Hm Heq.
    destruct (Hm w1) as [[l2 [Htr2 Hl2]] Hsame]. rewrite Heq in Htr2, Hsame.
    cbn [snd] in *. split; [|exact Hsame].
    exists (l1 ++ l2)%list. rewrite Htr2, Htr1, List.app_assoc.
    split; [reflexivity | apply List.Forall_app; now split]. }
  destruct rt as [[r|] [t|]]; unfold process_test in H; cbv beta iota zeta in H;
    apply bind_Val in H as (item_uuid & w1 & Hti & H);
    exists item_uuid;
    (match type of Hti with
     | test_item _ _ ?a ?b ?c ?sn ?e ?f ?g ?h ?i ?j ?k _ = _ =>
         destruct (Hfirst item_uuid sn a b c e f g h i j k w) as [Hsent1 _];
         rewrite Hti in Hsent1; cbn [snd] in Hsent1
     end);
    (match type of H with
     | ?m w1 = _ =>
         assert (Hrest : respects (refers_to item_uuid) same_uuids m)
           by (frame same_uuids_refl same_uuids_trans;
               first [ exact I | reflexivity ]);
         destruct (Hcombine item_uuid m w1 Hsent1 Hrest H) as [[sent [Htr Hall]] Hsame]
     end);
    exists sent; (split; [exact Htr |]); (split; [exact Hall |]);
    intros sn Hsn; cbn in Hsn; try discriminate; injection Hsn as <-;
    rewrite Hsame; eapply Hitem; exact Hti.
Qed.

End LaunchFirst.

(** X16.  Only the first request of an import can create a launch: an
    import creates at most one launch, before it sends anything else. *)
Theorem import_creates_the_launch_first (bytes_repr : Z -> string)
    (lower : string -> string) (re_search : string -> string -> bool) (datetime : string)
    (server : list request -> request -> response) (step : Step)
    (d : ReportReportPortalData) :
  launch_first
    (trace (snd (execute_rp_import bytes_repr lower re_search datetime server step
                   (start d)))).
Proof.
  exact (import_launch_first bytes_repr lower re_search datetime server step d _ eq_refl).
Qed.

(** X17.  The log entries and the finish call of one iteration of the loop
    over the tests name one test item, and when the iteration completes that
    item is the one the persisted map holds for the serial number of the
    test. *)
Theorem iteration_names_one_item (bytes_repr : Z -> string) (lower : string -> string)
    (re_search : string -> string -> bool)
    (server : list request -> request -> response) (step : Step)
    (ct lpp : bool) (attributes : list attribute) (pattern defect : string)
    (su : option string) (lu : string) (vars vars' : loop_vars)
    (rt : option Result * option Test) (w w' : world) :
  process_test bytes_repr lower re_search server step ct lpp attributes pattern defect
    su lu vars rt w = (Val vars', w') ->
  exists item_uuid sent,
    trace w' = (trace w ++ sent)%list
    /\ Forall (refers_to item_uuid) sent
    /\ forall sn, pair_serial rt = Some sn ->
                  test_uuids (data w') !! sn = Some item_uuid.
Proof. apply process_test_one_item. Qed.

Lemma iteration_names_one_item_witness :
  exists item_uuid sent,
    trace (snd (process_test Ex.bytes_repr Ex.lower Ex.re_search Ex.server Ex.step_single
                  true true [] "^TMT_.*" "" None "launch-uuid" (mkLoopVars "t0" "t0" None)
                  (Some Ex.result_fail, Some Ex.test_fail) (start Ex.data0)))
    = sent
    /\ Forall (refers_to item_uuid) sent.
Proof.
  eassert (Hrun : process_test Ex.bytes_repr Ex.lower Ex.re_search Ex.server Ex.step_single
                    true true [] "^TMT_.*" "" None "launch-uuid" (mkLoopVars "t0" "t0" None)
                    (Some Ex.result_fail, Some Ex.test_fail) (start Ex.data0)
                  = (Val _, _)) by (vm_compute; reflexivity).
  destruct (iteration_names_one_item _ _ _ _ _ _ _ _ _ _ _ _ _ _ _ _ _ Hrun)
    as (item_uuid & sent & Htr & Hall & _).
  exists item_uuid, sent. rewrite Hrun. split; [exact Htr | exact Hall].
Defined.
